(** * Lead generator (main.py) and dashboard metrics (dashboard_streamlit.py)

    A shallow embedding of the Python sources and the properties of the
    lead pipeline: extraction with fall-backs, the priority rule, the
    sorted CSV export, the run over the three business categories and the
    key metrics of the dashboard. *)

From Stdlib Require Import List String Ascii ZArith Bool Lia Arith.
From Stdlib Require Import Permutation Sorted.
From Stdlib Require Import SpecFloat DecimalString.
Import ListNotations.
Local Open Scope string_scope.
Local Set Warnings "-register-all".
Local Open Scope Z_scope.

(** ** Python values *)

(** A Python [float] is an IEEE 754 binary64 number. *)
Module Float64.

Definition prec : Z := 53.
Definition emax : Z := 1024.

Definition t : Type := spec_float.

Definition zero : t := S754_zero false.

(** [float(n)] for an [int]: round to nearest even; Python raises
    [OverflowError] where the rounded value is out of range. *)
Definition of_int (n : Z) : option t :=
  match binary_normalize prec emax n 0 false with
  | S754_infinity _ => None
  | x => Some x
  end.

Definition mul : t -> t -> t := SFmul prec emax.
Definition div : t -> t -> t := SFdiv prec emax.
Definition ltb : t -> t -> bool := SFltb.
Definition leb : t -> t -> bool := SFleb.
Definition eqb : t -> t -> bool := SFeqb.

Definition is_nan (x : t) : bool :=
  match x with S754_nan => true | _ => false end.

(** The literals [4.0], [4] and [100] of the sources. *)
Definition four : t := S754_finite false 4503599627370496 (-50).
Definition hundred : t := S754_finite false 7036874417766400 (-46).

(** Truth value of a float: false exactly for [0.0] and [-0.0]. *)
Definition truthy (x : t) : bool :=
  match x with S754_zero _ => false | _ => true end.

End Float64.

(** What [json()] can return: the values of a decoded JSON document.  A
    [dict] is kept as an association list in insertion order; [dict_get]
    reads the first binding of a key. *)
Inductive valor : Type :=
| VNone
| VBool (b : bool)
| VInt (n : Z)
| VFloat (x : Float64.t)
| VStr (s : string)
| VList (l : list valor)
| VDict (d : list (string * valor)).

(** The exceptions the modelled code can meet, by the [except] clause of
    [buscar_negocios] that takes them: [RequestException] stands for every
    instance of [requests.exceptions.RequestException] (connection errors,
    time-outs, the [HTTPError] of [raise_for_status]), [JSONDecodeError]
    for [json.JSONDecodeError]; the others fall to [except Exception]. *)
Inductive excepcion : Type :=
| RequestException (detalle : string)
| JSONDecodeError (detalle : string)
| TypeError
| ValueError
| AttributeError
| OverflowError
| ZeroDivisionError
| KeyError
| OtraExcepcion (detalle : string).

Definition resultado (A : Type) : Type := (excepcion + A)%type.

Fixpoint dict_lookup (d : list (string * valor)) (k : string) : option valor :=
  match d with
  | [] => None
  | (k', v) :: d' => if String.eqb k' k then Some v else dict_lookup d' k
  end.

(** [d.get(k, defecto)] *)
Definition dict_get (d : list (string * valor)) (k : string) (defecto : valor)
  : valor :=
  match dict_lookup d k with
  | Some v => v
  | None => defecto
  end.

(** [v == s] for a [str] literal [s]: only an equal [str] compares equal. *)
Definition eq_str (v : valor) (s : string) : bool :=
  match v with
  | VStr s' => String.eqb s' s
  | _ => false
  end.

(** Truth value of a Python object, as tested by [if v] / [x if v else y]. *)
Definition truthy (v : valor) : bool :=
  match v with
  | VNone => false
  | VBool b => b
  | VInt n => negb (n =? 0)
  | VFloat x => Float64.truthy x
  | VStr s => negb (String.eqb s "")
  | VList l => match l with [] => false | _ => true end
  | VDict d => match d with [] => false | _ => true end
  end.

Definition SENTINELA : string := "No disponible".
Definition ALTA_PRIORIDAD : string := "ALTA PRIORIDAD".
Definition NORMAL : string := "Normal".

(** ** GeneradorLeads._determinar_prioridad *)

(** [if rating < 4.0 or sitio_web == "No disponible": return "ALTA PRIORIDAD"]
    [return "Normal"] *)
Definition _determinar_prioridad (rating : Float64.t) (sitio_web : valor)
  : string :=
  if Float64.ltb rating Float64.four || eq_str sitio_web SENTINELA
  then ALTA_PRIORIDAD
  else NORMAL.

(** ** Leads, console messages and the trace of a run *)

(** A lead: the [dict] built in [_procesar_resultados], one field per key
    (["Nombre"], ["Dirección"], ["Teléfono"], ["Calificación"],
    ["Sitio Web"], ["Tipo Negocio"], ["Prioridad"], ["Fecha Extracción"],
    ["Ciudad"]). *)
Record Lead : Type := {
  Nombre : valor;
  Direccion : valor;
  Telefono : valor;
  Calificacion : Float64.t;
  Sitio_Web : valor;
  Tipo_Negocio : string;
  Prioridad : string;
  Fecha_Extraccion : string;
  Ciudad : string
}.

(** The parameters of the search request. *)
Record solicitud : Type := {
  url : string;
  engine : string;
  q : string;
  type_ : string;
  param_api_key : string;
  hl : string;
  gl : string;
  num : Z;
  timeout : Z
}.

(** What [requests.get] hands back: [raise_for_status()] raises or not,
    [json()] raises or returns the decoded document. *)
Record respuesta : Type := {
  raise_for_status : option excepcion;
  json : resultado valor
}.

(** The [print] calls, one constructor per call site, with the values
    interpolated into the text. *)
Inductive mensaje : Type :=
| MsgBuscando (tipo_negocio ciudad : string)
| MsgSinResultados
| MsgEstructura (datos : valor)
| MsgErrorHTTP (e : excepcion)
| MsgErrorJSON (e : excepcion)
| MsgErrorInesperado (e : excepcion)
| MsgEncontrado (nombre : valor) (prioridad : string)
| MsgErrorNegocio (e : excepcion)
| MsgNoHayLeads
| MsgGuardados (n : nat) (filename : string)
| MsgEstadisticas
| MsgTotalLeads (n : nat)
| MsgAltaPrioridad (n : nat)
| MsgSinSitioWeb (n : nat)
| MsgRatingBajo (n : nat)
| MsgGuardadosAlta (n : nat)
| MsgNoSeEncontraronLeads.

Inductive evento : Type :=
| Print (m : mensaje)
| HttpGet (s : solicitud)
| Sleep (segundos : Z)
| ToCsv (filename : string) (filas : list Lead).

(** The object [self] and the effects performed so far, oldest first. *)
Record GeneradorLeads : Type := {
  api_key : string;
  ciudad : string;
  base_url : string;
  leads : list Lead;
  traza : list evento
}.

(** [GeneradorLeads.__init__] *)
Definition __init__ (api_key ciudad : string) : GeneradorLeads :=
  {| api_key := api_key;
     ciudad := ciudad;
     base_url := "https://serpapi.com/search";
     leads := [];
     traza := [] |}.

(** ** A state and exception monad for the methods *)

Definition M (A : Type) : Type :=
  GeneradorLeads -> resultado A * GeneradorLeads.

Definition ret {A} (a : A) : M A := fun st => (inr a, st).
Definition raise {A} (e : excepcion) : M A := fun st => (inl e, st).

Definition bind {A B} (m : M A) (k : A -> M B) : M B :=
  fun st =>
    match m st with
    | (inr a, st') => k a st'
    | (inl e, st') => (inl e, st')
    end.

(** [try: m  except Exception as e: h e] *)
Definition try_except {A} (m : M A) (h : excepcion -> M A) : M A :=
  fun st =>
    match m st with
    | (inr a, st') => (inr a, st')
    | (inl e, st') => h e st'
    end.

Definition lift {A} (r : resultado A) : M A := fun st => (r, st).
Definition get_self : M GeneradorLeads := fun st => (inr st, st).

Declare Scope m_scope.
Delimit Scope m_scope with M.
Notation "x <- m ;; k" := (bind m (fun x => k))
  (at level 61, m at next level, right associativity) : m_scope.
Notation "m ;; k" := (bind m (fun _ => k))
  (at level 61, right associativity) : m_scope.

Definition emit (e : evento) : M unit :=
  fun st =>
    (inr tt, {| api_key := api_key st; ciudad := ciudad st;
                base_url := base_url st; leads := leads st;
                traza := traza st ++ [e] |}).

Definition print (m : mensaje) : M unit := emit (Print m).

(** [self.leads.append(lead)] *)
Definition leads_append (lead : Lead) : M unit :=
  fun st =>
    (inr tt, {| api_key := api_key st; ciudad := ciudad st;
                base_url := base_url st; leads := leads st ++ [lead];
                traza := traza st |}).

(** [for x in xs: cuerpo x] *)
Fixpoint for_each {A} (xs : list A) (cuerpo : A -> M unit) : M unit :=
  match xs with
  | [] => ret tt
  | x :: xs' => bind (cuerpo x) (fun _ => for_each xs' cuerpo)
  end.

(** ** Operations on decoded JSON values *)

(** [float(v)]; the conversion of a [str] is the builtin's, taken as
    [float_de_str] ([None] where the builtin raises [ValueError]). *)
Definition py_float (float_de_str : string -> option Float64.t) (v : valor)
  : resultado Float64.t :=
  match v with
  | VNone => inl TypeError
  | VBool b =>
      inr (if b then S754_finite false 4503599627370496 (-52) else Float64.zero)
  | VInt n =>
      match Float64.of_int n with
      | Some x => inr x
      | None => inl OverflowError
      end
  | VFloat x => inr x
  | VStr s =>
      match float_de_str s with
      | Some x => inr x
      | None => inl ValueError
      end
  | VList _ => inl TypeError
  | VDict _ => inl TypeError
  end.

(** [negocio.get(k, defecto)]: only a [dict] has the method. *)
Definition negocio_get (negocio : valor) (k : string) (defecto : valor)
  : resultado valor :=
  match negocio with
  | VDict d => inr (dict_get d k defecto)
  | _ => inl AttributeError
  end.

(** The keys of a [dict], each once, in insertion order. *)
Fixpoint claves (d : list (string * valor)) : list string :=
  match d with
  | [] => []
  | (k, _) :: d' => k :: filter (fun k' => negb (String.eqb k' k)) (claves d')
  end.

Definition es_continuacion (c : ascii) : bool :=
  let n := nat_of_ascii c in (128 <=? n)%nat && (n <? 192)%nat.

(** The characters of a [str] held as UTF-8 bytes. *)
Fixpoint caracteres (s : string) : list string :=
  match s with
  | EmptyString => []
  | String c s' =>
      match caracteres s', s' with
      | x :: xs, String c' _ =>
          if es_continuacion c' then String c x :: xs
          else String c EmptyString :: x :: xs
      | _, _ => [String c EmptyString]
      end
  end.

(** The items visited by [for x in v]; [TypeError] where [v] is not
    iterable. *)
Definition iterar (v : valor) : resultado (list valor) :=
  match v with
  | VList l => inr l
  | VDict d => inr (map VStr (claves d))
  | VStr s => inr (map VStr (caracteres s))
  | _ => inl TypeError
  end.

(** [k in v] for a [str] literal [k]. *)
Definition py_in (k : string) (v : valor) : resultado bool :=
  match v with
  | VDict d => inr (match dict_lookup d k with Some _ => true | None => false end)
  | VList l => inr (existsb (fun x => eq_str x k) l)
  | VStr s => inr (match String.index 0 k s with Some _ => true | None => false end)
  | _ => inl TypeError
  end.

(** [v[k]] for a [str] literal [k]. *)
Definition py_getitem (v : valor) (k : string) : resultado valor :=
  match v with
  | VDict d =>
      match dict_lookup d k with
      | Some x => inr x
      | None => inl KeyError
      end
  | _ => inl TypeError
  end.

Fixpoint n_solicitudes (t : list evento) : nat :=
  match t with
  | [] => 0
  | HttpGet _ :: t' => S (n_solicitudes t')
  | _ :: t' => n_solicitudes t'
  end.

(** ** The pandas operations used by the export *)

(** [pd.DataFrame(self.leads)]: a fresh table, one row per lead, one
    column per key. *)
Definition DataFrame (leads : list Lead) : list Lead := leads.

(** [df["Prioridad_Orden"] = df["Prioridad"].apply(lambda x: 0 if x ==
    "ALTA PRIORIDAD" else 1)]: the rows with the added column. *)
Definition Prioridad_Orden (x : string) : Z :=
  if String.eqb x ALTA_PRIORIDAD then 0 else 1.

Definition con_Prioridad_Orden (df : list Lead) : list (Lead * Z) :=
  map (fun fila => (fila, Prioridad_Orden (Prioridad fila))) df.

(** Order of two ratings under [ascending=False] with the default
    [na_position="last"]: greater first, NaN after every number. *)
Definition calificacion_leb (a b : Float64.t) : bool :=
  if Float64.is_nan b then true
  else if Float64.is_nan a then false
  else Float64.leb b a.

(** Order of two rows under [by=["Prioridad_Orden", "Calificación"],
    ascending=[True, False]]. *)
Definition clave_leb (x y : Lead * Z) : bool :=
  (snd x <? snd y)
  || ((snd x =? snd y)
      && calificacion_leb (Calificacion (fst x)) (Calificacion (fst y))).

(** A stable sort: each row goes before the first row of the sorted rest
    that it does not have to follow. *)
Section Ordenacion.
Context {A : Type} (leb : A -> A -> bool).

Fixpoint insertar (x : A) (l : list A) : list A :=
  match l with
  | [] => [x]
  | y :: l' => if leb x y then x :: l else y :: insertar x l'
  end.

Fixpoint ordenar (l : list A) : list A :=
  match l with
  | [] => []
  | x :: l' => insertar x (ordenar l')
  end.
End Ordenacion.

(** [df.sort_values(by=["Prioridad_Orden", "Calificación"],
    ascending=[True, False])]: with several keys pandas sorts
    lexicographically and stably. *)
Definition sort_values (df : list (Lead * Z)) : list (Lead * Z) :=
  ordenar clave_leb df.

(** [df.drop(columns=["Prioridad_Orden"])] *)
Definition drop_Prioridad_Orden (df : list (Lead * Z)) : list Lead :=
  map fst df.

Definition es_alta (fila : Lead) : bool :=
  String.eqb (Prioridad fila) ALTA_PRIORIDAD.

(** [df[df["Prioridad"] == "ALTA PRIORIDAD"]] *)
Definition filtrar_alta (df : list Lead) : list Lead := filter es_alta df.

(** [df[df["Sitio Web"] == "No disponible"]] *)
Definition filtrar_sin_web (df : list Lead) : list Lead :=
  filter (fun fila => eq_str (Sitio_Web fila) SENTINELA) df.

(** [df[df["Calificación"] < 4]] *)
Definition filtrar_rating_bajo (df : list Lead) : list Lead :=
  filter (fun fila => Float64.ltb (Calificacion fila) Float64.four) df.

(** ** The methods of GeneradorLeads *)

Section Entorno.

(** The builtin [float] on a [str]. *)
Variable float_de_str : string -> option Float64.t.
(** The network: what the [n]-th call of [requests.get] of the run
    returns or raises for a request. *)
Variable red : nat -> solicitud -> resultado respuesta.
(** The clock: [datetime.now().strftime(...)] at its [n]-th reading. *)
Variable ahora : nat -> string.

Local Open Scope m_scope.

(** [requests.get(self.base_url, params=params, timeout=30)] *)
Definition requests_get (s : solicitud) : M respuesta :=
  fun st =>
    (red (n_solicitudes (traza st)) s,
     {| api_key := api_key st; ciudad := ciudad st;
        base_url := base_url st; leads := leads st;
        traza := traza st ++ [HttpGet s] |}).

(** The body of the loop of [_procesar_resultados] (lines 72-113). *)
Definition procesar_negocio (negocio : valor) (tipo_negocio : string)
  : M unit :=
  try_except
    (nombre <- lift (negocio_get negocio "title" (VStr SENTINELA)) ;;
     direccion <- lift (negocio_get negocio "address" (VStr SENTINELA)) ;;
     telefono <- lift (negocio_get negocio "phone" (VStr SENTINELA)) ;;
     telefono <-
       (if eq_str telefono SENTINELA
        then lift (negocio_get negocio "phone_number" (VStr SENTINELA))
        else ret telefono) ;;
     rating_str <- lift (negocio_get negocio "rating" (VStr "0")) ;;
     rating <-
       try_except
         (if truthy rating_str
          then lift (py_float float_de_str rating_str)
          else ret Float64.zero)
         (fun e =>
            match e with
            | ValueError => ret Float64.zero
            | _ => raise e
            end) ;;
     sitio_web <- lift (negocio_get negocio "website" (VStr SENTINELA)) ;;
     let prioridad := _determinar_prioridad rating sitio_web in
     self <- get_self ;;
     let lead :=
       {| Nombre := nombre;
          Direccion := direccion;
          Telefono := telefono;
          Calificacion := rating;
          Sitio_Web := sitio_web;
          Tipo_Negocio := tipo_negocio;
          Prioridad := prioridad;
          Fecha_Extraccion := ahora (List.length (leads self));
          Ciudad := ciudad self |} in
     leads_append lead ;;
     print (MsgEncontrado nombre prioridad))
    (fun e => print (MsgErrorNegocio e)).

(** [GeneradorLeads._procesar_resultados] *)
Definition _procesar_resultados (resultados : valor) (tipo_negocio : string)
  : M unit :=
  negocios <- lift (iterar resultados) ;;
  for_each negocios (fun negocio => procesar_negocio negocio tipo_negocio).

(** [GeneradorLeads.buscar_negocios] *)
Definition buscar_negocios (tipo_negocio : string) (max_resultados : Z)
  : M unit :=
  self <- get_self ;;
  print (MsgBuscando tipo_negocio (ciudad self)) ;;
  let params :=
    {| url := base_url self;
       engine := "google_maps";
       q := tipo_negocio ++ " " ++ ciudad self;
       type_ := "search";
       param_api_key := api_key self;
       hl := "es";
       gl := "es";
       num := max_resultados;
       timeout := 30 |} in
  try_except
    (resp <- requests_get params ;;
     match raise_for_status resp with
     | Some e => raise e
     | None => ret tt
     end ;;
     datos <- lift (json resp) ;;
     hay <- lift (py_in "local_results" datos) ;;
     if hay : bool
     then
       resultados <- lift (py_getitem datos "local_results") ;;
       _procesar_resultados resultados tipo_negocio
     else
       print MsgSinResultados ;;
       print (MsgEstructura datos))
    (fun e =>
       match e with
       | RequestException _ => print (MsgErrorHTTP e)
       | JSONDecodeError _ => print (MsgErrorJSON e)
       | _ => print (MsgErrorInesperado e)
       end).

(** [GeneradorLeads.guardar_csv] *)
Definition guardar_csv (filename : string) : M unit :=
  self <- get_self ;;
  match leads self with
  | [] => print MsgNoHayLeads
  | _ :: _ =>
      let df := DataFrame (leads self) in
      let df := con_Prioridad_Orden df in
      let df := sort_values df in
      let df := drop_Prioridad_Orden df in
      emit (ToCsv filename df) ;;
      print (MsgGuardados (List.length (leads self)) filename) ;;
      let alta_prioridad := filtrar_alta df in
      print MsgEstadisticas ;;
      print (MsgTotalLeads (List.length df)) ;;
      print (MsgAltaPrioridad (List.length alta_prioridad)) ;;
      print (MsgSinSitioWeb (List.length (filtrar_sin_web df))) ;;
      print (MsgRatingBajo (List.length (filtrar_rating_bajo df)))
  end.

Definition tipos_negocio : list string :=
  ["Talleres mecánicos"; "Agencias de seguros"; "Clínicas"].

(** [GeneradorLeads.ejecutar_busqueda_completa]; [buscar_negocios] and
    [guardar_csv] are called with their default arguments. *)
Definition ejecutar_busqueda_completa : M unit :=
  for_each tipos_negocio
    (fun tipo => buscar_negocios tipo 20 ;; emit (Sleep 2)) ;;
  self <- get_self ;;
  match leads self with
  | _ :: _ =>
      guardar_csv "clientes_potenciales.csv" ;;
      self <- get_self ;;
      let df := DataFrame (leads self) in
      let alta_prioridad := filtrar_alta df in
      match alta_prioridad with
      | _ :: _ =>
          emit (ToCsv "clientes_alta_prioridad.csv" alta_prioridad) ;;
          print (MsgGuardadosAlta (List.length alta_prioridad))
      | [] => ret tt
      end
  | [] => print MsgNoSeEncontraronLeads
  end.

End Entorno.

(** ** DashboardLeads.calcular_metricas_clave *)

(** [a / b] on [int]s: the correctly rounded quotient, [ZeroDivisionError]
    for a zero divisor, [OverflowError] where the quotient is out of
    range. *)
Definition truediv (a b : Z) : resultado Float64.t :=
  let operando (n : Z) : Float64.t :=
    match n with
    | Z0 => Float64.zero
    | Zpos p => S754_finite false p 0
    | Zneg p => S754_finite true p 0
    end in
  if b =? 0 then inl ZeroDivisionError
  else
    match Float64.div (operando a) (operando b) with
    | S754_infinity _ => inl OverflowError
    | x => inr x
    end.

Definition str_de_Z (n : Z) : string :=
  DecimalString.NilZero.string_of_int (Z.to_int n).

(** The number of tenths nearest to [m * 2^e], ties to even. *)
Definition decimas (m : positive) (e : Z) : Z :=
  if 0 <=? e then Zpos m * 2 ^ e * 10
  else
    let d := 2 ^ (- e) in
    let n := Zpos m * 10 in
    let c := n / d in
    match (2 * (n mod d)) ?= d with
    | Lt => c
    | Gt => c + 1
    | Eq => if Z.even c then c else c + 1
    end.

(** [f"{x:.1f}"] *)
Definition formato_1f (x : Float64.t) : string :=
  match x with
  | S754_nan => "nan"
  | S754_infinity s => if s then "-inf" else "inf"
  | S754_zero s => if s then "-0.0" else "0.0"
  | S754_finite s m e =>
      let n := decimas m e in
      (if s then "-" else "") ++ str_de_Z (n / 10) ++ "." ++ str_de_Z (n mod 10)
  end.

Record Metricas : Type := {
  total_leads : Z;
  alta_prioridad : Z;
  sin_web : Z;
  rating_bajo : Z;
  tasa_conversion_estimada : string;
  valor_potencial_total : Z
}.

(** [len(df)] *)
Definition len {A} (l : list A) : Z := Z.of_nat (List.length l).

(** The table is a list of rows with the columns of [Lead]. *)
Definition calcular_metricas_clave (df : list Lead) : resultado Metricas :=
  let total := len df in
  let alta := len (filtrar_alta df) in
  let sin := len (filtrar_sin_web df) in
  let bajo := len (filtrar_rating_bajo df) in
  match truediv (len (filtrar_alta df)) (len df) with
  | inl e => inl e
  | inr cociente =>
      inr {| total_leads := total;
             alta_prioridad := alta;
             sin_web := sin;
             rating_bajo := bajo;
             tasa_conversion_estimada :=
               formato_1f (Float64.mul cociente Float64.hundred) ++ "%";
             valor_potencial_total := len df * 2500 |}
  end.

(** ** Readings of the extraction code *)

(** The state after appending [nuevos] to the leads and [evs] to the
    trace. *)
Definition agregar (st : GeneradorLeads) (nuevos : list Lead)
  (evs : list evento) : GeneradorLeads :=
  {| api_key := api_key st; ciudad := ciudad st; base_url := base_url st;
     leads := leads st ++ nuevos; traza := traza st ++ evs |}.

(** The value bound to [telefono] after line 80, for a record [d]. *)
Definition extraer_telefono (d : list (string * valor)) : valor :=
  let telefono := dict_get d "phone" (VStr SENTINELA) in
  if eq_str telefono SENTINELA
  then dict_get d "phone_number" (VStr SENTINELA)
  else telefono.

(** The outcome of lines 83-87 for a record [d]: the rating, or the
    exception that leaves the inner [try]. *)
Definition extraer_rating (float_de_str : string -> option Float64.t)
  (d : list (string * valor)) : resultado Float64.t :=
  let rating_str := dict_get d "rating" (VStr "0") in
  if truthy rating_str
  then
    match py_float float_de_str rating_str with
    | inl ValueError => inr Float64.zero
    | r => r
    end
  else inr Float64.zero.

(** The lead built at lines 96-106 from a raw record, or the exception
    caught at line 111. *)
Definition extraer_lead (float_de_str : string -> option Float64.t)
  (ciudad tipo_negocio fecha : string) (negocio : valor) : resultado Lead :=
  match negocio with
  | VDict d =>
      match extraer_rating float_de_str d with
      | inl e => inl e
      | inr rating =>
          let sitio_web := dict_get d "website" (VStr SENTINELA) in
          inr {| Nombre := dict_get d "title" (VStr SENTINELA);
                 Direccion := dict_get d "address" (VStr SENTINELA);
                 Telefono := extraer_telefono d;
                 Calificacion := rating;
                 Sitio_Web := sitio_web;
                 Tipo_Negocio := tipo_negocio;
                 Prioridad := _determinar_prioridad rating sitio_web;
                 Fecha_Extraccion := fecha;
                 Ciudad := ciudad |}
      end
  | _ => inl AttributeError
  end.

(** Whether the extraction of a raw record reaches [self.leads.append]. *)
Definition extraccion_ok (float_de_str : string -> option Float64.t)
  (negocio : valor) : bool :=
  match extraer_lead float_de_str "" "" "" negocio with
  | inr _ => true
  | inl _ => false
  end.

(** The leads of the records of [negocios] whose extraction succeeds, in
    order; [n] clock readings were made before. *)
Fixpoint leads_extraidos (float_de_str : string -> option Float64.t)
  (ahora : nat -> string) (ciudad tipo_negocio : string) (n : nat)
  (negocios : list valor) : list Lead :=
  match negocios with
  | [] => []
  | negocio :: resto =>
      match extraer_lead float_de_str ciudad tipo_negocio (ahora n) negocio with
      | inr lead =>
          lead :: leads_extraidos float_de_str ahora ciudad tipo_negocio
                    (S n) resto
      | inl _ =>
          leads_extraidos float_de_str ahora ciudad tipo_negocio n resto
      end
  end.

(** The phone as the specification words it: the value of the first of
    ["phone"], ["phone_number"] that is present, the sentinel when neither
    is. *)
Definition telefono_segun_spec (d : list (string * valor)) : valor :=
  match dict_lookup d "phone" with
  | Some v => v
  | None =>
      match dict_lookup d "phone_number" with
      | Some v => v
      | None => VStr SENTINELA
      end
  end.

(** A field that is absent or holds the sentinel string itself. *)
Definition sin_dato (d : list (string * valor)) (k : string) : bool :=
  match dict_lookup d k with
  | None => true
  | Some v => eq_str v SENTINELA
  end.

(** The console lines of the records of [negocios], as in
    [leads_extraidos]. *)
Fixpoint eventos_extraccion (float_de_str : string -> option Float64.t)
  (ahora : nat -> string) (ciudad tipo_negocio : string) (n : nat)
  (negocios : list valor) : list evento :=
  match negocios with
  | [] => []
  | negocio :: resto =>
      match extraer_lead float_de_str ciudad tipo_negocio (ahora n) negocio with
      | inr lead =>
          Print (MsgEncontrado (Nombre lead) (Prioridad lead))
          :: eventos_extraccion float_de_str ahora ciudad tipo_negocio
               (S n) resto
      | inl e =>
          Print (MsgErrorNegocio e)
          :: eventos_extraccion float_de_str ahora ciudad tipo_negocio n resto
      end
  end.

(** *** A conversion for the examples *)

Definition digito (c : ascii) : option Z :=
  let n := Z.of_nat (nat_of_ascii c) in
  if (48 <=? n) && (n <=? 57) then Some (n - 48) else None.

(** Reads [digits[.digits]]: the digits read so far as an integer, whether
    the point was met, the number of digits after it and the number of
    digits in all. *)
Fixpoint leer_decimal (s : string) (m : Z) (punto : bool) (k n : nat)
  : option (Z * nat) :=
  match s with
  | EmptyString => if (0 <? n)%nat then Some (m, k) else None
  | String c s' =>
      if Ascii.eqb c "."%char
      then if punto then None else leer_decimal s' m true k n
      else
        match digito c with
        | Some v =>
            leer_decimal s' (10 * m + v) punto (if punto then S k else k) (S n)
        | None => None
        end
  end.

Fixpoint pot10 (k : nat) : positive :=
  match k with
  | O => 1
  | S k' => 10 * pot10 k'
  end.

(** [float(s)] for an unsigned decimal literal without exponent, correctly
    rounded; every other string is refused. *)
Definition float_de_decimal (s : string) : option Float64.t :=
  match leer_decimal s 0 false 0 0 with
  | Some (Zpos m, k) =>
      Some (Float64.div (S754_finite false m 0)
              (S754_finite false (pot10 k) 0))
  | Some (_, _) => Some Float64.zero
  | None => None
  end.

(** *** Readings of the export *)

(** The order of [sort_values] read on the leads themselves. *)
Definition lead_leb (a b : Lead) : bool :=
  clave_leb (a, Prioridad_Orden (Prioridad a))
            (b, Prioridad_Orden (Prioridad b)).

(** Two leads the sort does not tell apart: same priority rank and equal
    ratings (or both ratings missing). *)
Definition misma_clave (a b : Lead) : bool :=
  (Prioridad_Orden (Prioridad a) =? Prioridad_Orden (Prioridad b))
  && (Float64.eqb (Calificacion a) (Calificacion b)
      || (Float64.is_nan (Calificacion a) && Float64.is_nan (Calificacion b))).

(** The rows [guardar_csv] hands to [to_csv] (lines 145-150). *)
Definition filas_csv (leads : list Lead) : list Lead :=
  drop_Prioridad_Orden (sort_values (con_Prioridad_Orden (DataFrame leads))).

(** A later rating is never greater than an earlier one. *)
Definition no_creciente (a b : Lead) : Prop :=
  Float64.ltb (Calificacion a) (Calificacion b) = false.

(** The console lines that follow the write in [guardar_csv]. *)
Definition estadisticas (n : nat) (filename : string) (df : list Lead)
  : list evento :=
  [Print (MsgGuardados n filename);
   Print MsgEstadisticas;
   Print (MsgTotalLeads (List.length df));
   Print (MsgAltaPrioridad (List.length (filtrar_alta df)));
   Print (MsgSinSitioWeb (List.length (filtrar_sin_web df)));
   Print (MsgRatingBajo (List.length (filtrar_rating_bajo df)))].

(** *** Readings of a category query *)

(** The request [buscar_negocios] builds (lines 32-40, 44). *)
Definition params_de (st : GeneradorLeads) (tipo_negocio : string)
  (max_resultados : Z) : solicitud :=
  {| url := base_url st;
     engine := "google_maps";
     q := tipo_negocio ++ " " ++ ciudad st;
     type_ := "search";
     param_api_key := api_key st;
     hl := "es";
     gl := "es";
     num := max_resultados;
     timeout := 30 |}.

(** The line printed by the handlers of lines 56-61. *)
Definition mensaje_error (e : excepcion) : mensaje :=
  match e with
  | RequestException _ => MsgErrorHTTP e
  | JSONDecodeError _ => MsgErrorJSON e
  | _ => MsgErrorInesperado e
  end.

(** How a query ends before the loop over the records starts: with an
    exception, with a document without ["local_results"], or with the
    records to visit. *)
Inductive desenlace : Type :=
| Falla (e : excepcion)
| SinResultados (datos : valor)
| Resultados (negocios : list valor).

Definition desenlace_de (r : resultado respuesta) : desenlace :=
  match r with
  | inl e => Falla e
  | inr resp =>
      match raise_for_status resp with
      | Some e => Falla e
      | None =>
          match json resp with
          | inl e => Falla e
          | inr datos =>
              match py_in "local_results" datos with
              | inl e => Falla e
              | inr false => SinResultados datos
              | inr true =>
                  match py_getitem datos "local_results" with
                  | inl e => Falla e
                  | inr resultados =>
                      match iterar resultados with
                      | inl e => Falla e
                      | inr negocios => Resultados negocios
                      end
                  end
              end
          end
      end
  end.

(** The files written, in order. *)
Fixpoint csvs (t : list evento) : list (string * list Lead) :=
  match t with
  | [] => []
  | ToCsv filename filas :: t' => (filename, filas) :: csvs t'
  | _ :: t' => csvs t'
  end.

(** The requests sent, in order. *)
Fixpoint solicitudes (t : list evento) : list solicitud :=
  match t with
  | [] => []
  | HttpGet s :: t' => s :: solicitudes t'
  | _ :: t' => solicitudes t'
  end.

(** *** Reading of the end of a run *)

(** What [ejecutar_busqueda_completa] does after the loop (lines 178-188)
    when [self.leads] is [L]. *)
Definition cierre (L : list Lead) : list evento :=
  match L with
  | [] => [Print MsgNoSeEncontraronLeads]
  | _ :: _ =>
      (ToCsv "clientes_potenciales.csv" (filas_csv L)
       :: estadisticas (List.length L) "clientes_potenciales.csv" (filas_csv L))
      ++ match filtrar_alta L with
         | [] => []
         | _ :: _ =>
             [ToCsv "clientes_alta_prioridad.csv" (filtrar_alta L);
              Print (MsgGuardadosAlta (List.length (filtrar_alta L)))]
         end
  end.

(** *** Inputs for the examples *)

Definition fila_de_ejemplo (nombre prioridad : string) (rating : Float64.t)
  : Lead :=
  {| Nombre := VStr nombre; Direccion := VStr "Calle Mayor 1";
     Telefono := VStr SENTINELA; Calificacion := rating;
     Sitio_Web := VStr SENTINELA; Tipo_Negocio := "Clínicas";
     Prioridad := prioridad; Fecha_Extraccion := "2024-01-01 00:00:00";
     Ciudad := "Toledo" |}.

(** 3.2, 4.5 and 4.8 as binary64 numbers. *)
Definition f3_2 : Float64.t := S754_finite false 7205759403792794 (-51).
Definition f4_5 : Float64.t := S754_finite false 5066549580791808 (-50).
Definition f4_8 : Float64.t := S754_finite false 5404319552844595 (-50).

Definition generador_de_ejemplo (leads : list Lead) : GeneradorLeads :=
  {| api_key := "clave"; ciudad := "Toledo";
     base_url := "https://serpapi.com/search"; leads := leads; traza := [] |}.

Definition negocio_abc : valor :=
  VDict [("title", VStr "ABC Clinic"); ("rating", VFloat f4_5);
         ("website", VStr "http://abc.com")].

Definition negocio_xyz : valor :=
  VDict [("title", VStr "XYZ Shop"); ("rating", VStr "3.2")].

(** A network whose first request times out, whose second gets an error
    status, and whose later ones get two records. *)
Definition red_de_ejemplo (n : nat) (s : solicitud) : resultado respuesta :=
  match n with
  | O => inl (RequestException "ConnectTimeout")
  | S O =>
      inr {| raise_for_status := Some (RequestException "500 Server Error");
             json := inl (JSONDecodeError "Expecting value") |}
  | _ =>
      inr {| raise_for_status := None;
             json := inr (VDict [("local_results",
                                  VList [negocio_abc; negocio_xyz])]) |}
  end.

(** A network that never yields a record: a time-out, a body that is not
    JSON, then empty result lists. *)
Definition red_sin_resultados (n : nat) (s : solicitud)
  : resultado respuesta :=
  match n with
  | O => inl (RequestException "ConnectTimeout")
  | S O =>
      inr {| raise_for_status := None;
             json := inl (JSONDecodeError "Expecting value") |}
  | _ =>
      inr {| raise_for_status := None;
             json := inr (VDict [("local_results", VList [])]) |}
  end.

Definition reloj_de_ejemplo (n : nat) : string := "2024-01-01 00:00:00".

(** The leads of [negocio_abc] and [negocio_xyz] for the category
    "Clínicas" in Toledo. *)
Definition lead_abc : Lead :=
  {| Nombre := VStr "ABC Clinic"; Direccion := VStr SENTINELA;
     Telefono := VStr SENTINELA; Calificacion := f4_5;
     Sitio_Web := VStr "http://abc.com"; Tipo_Negocio := "Clínicas";
     Prioridad := NORMAL; Fecha_Extraccion := "2024-01-01 00:00:00";
     Ciudad := "Toledo" |}.

Definition lead_xyz : Lead :=
  {| Nombre := VStr "XYZ Shop"; Direccion := VStr SENTINELA;
     Telefono := VStr SENTINELA; Calificacion := f3_2;
     Sitio_Web := VStr SENTINELA; Tipo_Negocio := "Clínicas";
     Prioridad := ALTA_PRIORIDAD; Fecha_Extraccion := "2024-01-01 00:00:00";
     Ciudad := "Toledo" |}.

(** *** Readings for the invariants of a run *)

(** A lead whose priority is the one its own rating and website give. *)
Definition lead_coherente (lead : Lead) : Prop :=
  Prioridad lead = _determinar_prioridad (Calificacion lead) (Sitio_Web lead).

(** The loop of [ejecutar_busqueda_completa] (lines 174-176). *)
Definition bucle_busqueda (float_de_str : string -> option Float64.t)
  (red : nat -> solicitud -> resultado respuesta) (ahora : nat -> string)
  : M unit :=
  for_each tipos_negocio
    (fun tipo =>
       bind (buscar_negocios float_de_str red ahora tipo 20)
            (fun _ => emit (Sleep 2))).

(** ** main (main.py) *)

(** What the script prints, by block of [print] calls, and what its
    generator does. *)
Inductive linea_main : Type :=
| LBanner                      (* lines 195-197 *)
| LErrorApiKey                 (* lines 205-210 *)
| LGenerador (e : evento)      (* an effect of [generador] *)
| LCabeceraAlta                (* lines 221-223 *)
| LLead (lead : Lead)          (* lines 230-235, for one row *)
| LSinAltaPrioridad            (* line 237 *)
| LCompletado.                 (* lines 239-241 *)

Definition API_KEY_SIN_CONFIGURAR : string := "TU_API_KEY_AQUÍ".

(** The body of [main] for the values given to its two constants
    [API_KEY] and [CIUDAD]. *)
Definition main_con (float_de_str : string -> option Float64.t)
  (red : nat -> solicitud -> resultado respuesta) (ahora : nat -> string)
  (API_KEY CIUDAD : string) : resultado unit * list linea_main :=
  if String.eqb API_KEY API_KEY_SIN_CONFIGURAR
  then (inr tt, [LBanner; LErrorApiKey])
  else
    let generador := __init__ API_KEY CIUDAD in
    match ejecutar_busqueda_completa float_de_str red ahora generador with
    | (inl e, generador) => (inl e, LBanner :: map LGenerador (traza generador))
    | (inr _, generador) =>
        (inr tt,
         LBanner :: map LGenerador (traza generador)
         ++ match leads generador with
            | [] => []
            | _ :: _ =>
                let df := DataFrame (leads generador) in
                let alta_prioridad := filtrar_alta df in
                LCabeceraAlta
                :: match alta_prioridad with
                   | _ :: _ => map LLead (firstn 5 alta_prioridad)
                   | [] => [LSinAltaPrioridad]
                   end
                ++ [LCompletado]
            end)
    end.

(** [main] as written: [API_KEY = "TU_API_KEY_AQUÍ"], [CIUDAD = "Madrid"]. *)
Definition main (float_de_str : string -> option Float64.t)
  (red : nat -> solicitud -> resultado respuesta) (ahora : nat -> string)
  : resultado unit * list linea_main :=
  main_con float_de_str red ahora "TU_API_KEY_AQUÍ" "Madrid".

(** The effects of the generator and the leads listed, read from the
    output. *)
Fixpoint eventos_de (salida : list linea_main) : list evento :=
  match salida with
  | [] => []
  | LGenerador e :: r => e :: eventos_de r
  | _ :: r => eventos_de r
  end.

Fixpoint leads_mostrados (salida : list linea_main) : list Lead :=
  match salida with
  | [] => []
  | LLead lead :: r => lead :: leads_mostrados r
  | _ :: r => leads_mostrados r
  end.

(** ** Config (config/config.py) *)

(** [os.getenv(k, defecto)] over the environment left by [load_dotenv]. *)
Definition getenv (env : string -> option string) (k defecto : string)
  : string :=
  match env k with
  | Some v => v
  | None => defecto
  end.

Record Config : Type := {
  SERPAPI_API_KEY : string;
  AIRTABLE_API_KEY : string;
  AIRTABLE_BASE_ID : string;
  SENDGRID_API_KEY : string;
  CIUDAD_DEFAULT : string;
  TIPOS_NEGOCIO : list string;
  PATH_LEADS_CSV : string;
  PATH_LEADS_PRIORIZADOS : string;
  PATH_LOGS : string;
  EMAIL_FROM : string;
  EMAIL_REPLY_TO : string;
  STREAMLIT_PORT : Z;
  STREAMLIT_THEME : string
}.

(** The class attributes, evaluated in the environment [env]. *)
Definition Config_de (env : string -> option string) : Config :=
  {| SERPAPI_API_KEY := getenv env "SERPAPI_API_KEY" "";
     AIRTABLE_API_KEY := getenv env "AIRTABLE_API_KEY" "";
     AIRTABLE_BASE_ID := getenv env "AIRTABLE_BASE_ID" "";
     SENDGRID_API_KEY := getenv env "SENDGRID_API_KEY" "";
     CIUDAD_DEFAULT := getenv env "CIUDAD_DEFAULT" "Toledo";
     TIPOS_NEGOCIO := ["Talleres mecánicos"; "Agencias de seguros"; "Clínicas"];
     PATH_LEADS_CSV := "data/leads.csv";
     PATH_LEADS_PRIORIZADOS := "data/leads_priorizados.csv";
     PATH_LOGS := "logs/";
     EMAIL_FROM := getenv env "EMAIL_FROM" "tu_negocio@email.com";
     EMAIL_REPLY_TO := getenv env "EMAIL_REPLY_TO" "soporte@tudominio.com";
     STREAMLIT_PORT := 8501;
     STREAMLIT_THEME := "dark" |}.

Definition ERROR_SERPAPI : string := "SERPAPI_API_KEY no configurada".
Definition ERROR_AIRTABLE : string := "AIRTABLE_API_KEY no configurada".
Definition CABECERA_ERRORES : string := "⚠️ ERRORES DE CONFIGURACIÓN:".
Definition SOLUCION : string :=
  String (ascii_of_nat 10)
    "💡 Solución: Crea un archivo .env con las variables requeridas".

(** [not s] for a [str]. *)
Definition vacia (s : string) : bool := String.eqb s "".

(** [Config.validar_configuracion]: the value returned and the lines
    printed. *)
Definition validar_configuracion (cls : Config) : bool * list string :=
  let errores : list string := [] in
  let errores :=
    if vacia (SERPAPI_API_KEY cls) then (errores ++ [ERROR_SERPAPI])%list
    else errores in
  let errores :=
    if vacia (AIRTABLE_API_KEY cls) then (errores ++ [ERROR_AIRTABLE])%list
    else errores in
  match errores with
  | _ :: _ =>
      (false,
       ([CABECERA_ERRORES]
        ++ map (fun error => ("   • " ++ error)%string) errores
        ++ [SOLUCION])%list)
  | [] => (true, [])
  end.

(** ** The data path of the dashboard (dashboard_streamlit.py) *)

(** [a >= b] on floats. *)
Definition float_ge (a b : Float64.t) : bool :=
  match SFcompare a b with
  | Some Gt | Some Eq => true
  | _ => false
  end.

(** [serie.unique()]: the distinct values in order of first appearance. *)
Fixpoint unique (l : list string) : list string :=
  match l with
  | [] => []
  | x :: r => x :: filter (fun y => negb (String.eqb y x)) (unique r)
  end.

(** [serie.isin(valores)] for one row. *)
Definition isin (x : string) (valores : list string) : bool :=
  existsb (String.eqb x) valores.

(** The row mask and selection of lines 160-165 of [main], for the
    values returned by the two [multiselect]s and the [slider]. *)
Definition aplicar_filtros (df : list Lead) (tipo_negocio prioridad : list string)
  (rating_min rating_max : Float64.t) : list Lead :=
  filter
    (fun fila =>
       isin (Tipo_Negocio fila) tipo_negocio
       && isin (Prioridad fila) prioridad
       && float_ge (Calificacion fila) rating_min
       && Float64.leb (Calificacion fila) rating_max)
    df.

(** The way from the loaded table to the metrics in [main] (lines
    133-172): [None] when [df.empty] stops the page, otherwise the metrics
    of the filtered table. *)
Definition metricas_de_main (df : list Lead) (tipo_negocio prioridad : list string)
  (rating_min rating_max : Float64.t) : resultado (option Metricas) :=
  match df with
  | [] => inr None
  | _ :: _ =>
      let df_filtrado :=
        aplicar_filtros df tipo_negocio prioridad rating_min rating_max in
      match calcular_metricas_clave df_filtrado with
      | inl e => inl e
      | inr metricas => inr (Some metricas)
      end
  end.

Definition FileNotFoundError : excepcion :=
  OtraExcepcion
    "FileNotFoundError: No se encontraron archivos de clientes_potenciales".

(** [DashboardLeads.cargar_datos] over what it reads from outside:
    [table_all] is [self.table.all()] when [self.table] is set,
    [archivos] the module-level result of [glob.glob], [getctime] and
    [read_csv] the two file operations, [DataFrame_de] the constructor
    [pd.DataFrame] on a list of [fields]. *)
Section CargarDatos.
Variable tabla : Type.
Variable DataFrame_de : list valor -> tabla.
Variable getctime : string -> resultado Float64.t.
Variable read_csv : string -> resultado tabla.

(** [[record['fields'] for record in records]] *)
Fixpoint campos_de (records : list valor) : resultado (list valor) :=
  match records with
  | [] => inr []
  | record :: resto =>
      match py_getitem record "fields" with
      | inl e => inl e
      | inr campos =>
          match campos_de resto with
          | inl e => inl e
          | inr cs => inr (campos :: cs)
          end
      end
  end.

(** The loop of [max(resto, key=getctime)] once a first candidate is
    held: a later file replaces it only when its key is greater. *)
Fixpoint max_getctime_aux (mejor : string) (k_mejor : Float64.t)
  (resto : list string) : resultado string :=
  match resto with
  | [] => inr mejor
  | archivo :: resto' =>
      match getctime archivo with
      | inl e => inl e
      | inr k =>
          if Float64.ltb k_mejor k
          then max_getctime_aux archivo k resto'
          else max_getctime_aux mejor k_mejor resto'
      end
  end.

(** [max(archivos, key=os.path.getctime)] *)
Definition max_getctime (archivos : list string) : resultado string :=
  match archivos with
  | [] => inl ValueError
  | archivo :: resto =>
      match getctime archivo with
      | inl e => inl e
      | inr k => max_getctime_aux archivo k resto
      end
  end.

Definition cargar_datos (table_all : option (resultado (list valor)))
  (archivos : list string) : resultado tabla :=
  match table_all with
  | Some todos =>
      match todos with
      | inl e => inl e
      | inr records =>
          match campos_de records with
          | inl e => inl e
          | inr campos => inr (DataFrame_de campos)
          end
      end
  | None =>
      match archivos with
      | [] => inl FileNotFoundError
      | _ :: _ =>
          match max_getctime archivos with
          | inl e => inl e
          | inr archivo_mas_reciente => read_csv archivo_mas_reciente
          end
      end
  end.

End CargarDatos.

(** *** Reading of a non-negative float *)

(** The float of value [m * 2^e], for [m >= 0]. *)
Definition flotante (m e : Z) : spec_float :=
  if m =? 0 then S754_zero false else S754_finite false (Z.to_pos m) e.

(** * Properties *)

Lemma eq_str_true (v : valor) (s : string) :
  eq_str v s = true <-> v = VStr s.
Proof.
  destruct v; simpl; try (split; [discriminate | intro H; discriminate H]).
  rewrite String.eqb_eq. split; [intros -> | intros [= ->]]; reflexivity.
Qed.

(** The literal [4.0] is the float of the integer 4. *)
Example four_is_4 : Float64.of_int 4 = Some Float64.four.
Proof. reflexivity. Qed.

(** C1: the classifier returns "ALTA PRIORIDAD" exactly when the rating is
    below 4.0 or the website is the string "No disponible", and "Normal"
    otherwise; below 4.0 the website does not matter. *)
Theorem determinar_prioridad_iff (r : Float64.t) (w : valor) :
  (_determinar_prioridad r w = ALTA_PRIORIDAD
   <-> Float64.ltb r Float64.four = true \/ w = VStr SENTINELA)
  /\ (~ (Float64.ltb r Float64.four = true \/ w = VStr SENTINELA)
      -> _determinar_prioridad r w = NORMAL)
  /\ (Float64.ltb r Float64.four = true
      -> forall w', _determinar_prioridad r w' = ALTA_PRIORIDAD).
Proof.
  unfold _determinar_prioridad.
  repeat split.
  - destruct (Float64.ltb r Float64.four) eqn:Hr; [now left|].
    destruct (eq_str w SENTINELA) eqn:Hw; simpl; [|discriminate].
    right. now apply eq_str_true.
  - intros [H | H].
    + now rewrite H.
    + apply eq_str_true in H. rewrite H. now rewrite orb_true_r.
  - intros H.
    destruct (Float64.ltb r Float64.four) eqn:Hr; [exfalso; auto|].
    destruct (eq_str w SENTINELA) eqn:Hw; [|reflexivity].
    exfalso. apply H. right. now apply eq_str_true.
  - intros H w'. now rewrite H.
Qed.

Lemma determinar_prioridad_iff_witness :
  (_determinar_prioridad Float64.zero (VStr "http://abc.com") = ALTA_PRIORIDAD
   <-> Float64.ltb Float64.zero Float64.four = true
       \/ VStr "http://abc.com" = VStr SENTINELA)
  /\ _determinar_prioridad (S754_finite false 5066549580791808 (-50))
       (VStr "http://abc.com") = NORMAL
  /\ _determinar_prioridad Float64.zero VNone = ALTA_PRIORIDAD.
Proof.
  split; [|split].
  - exact (proj1 (determinar_prioridad_iff Float64.zero (VStr "http://abc.com"))).
  - apply (proj1 (proj2 (determinar_prioridad_iff
                           (S754_finite false 5066549580791808 (-50))
                           (VStr "http://abc.com")))).
    intros [H | H]; discriminate H.
  - apply (proj2 (proj2 (determinar_prioridad_iff Float64.zero VNone))).
    reflexivity.
Defined.

(** *** The state after each step *)

Lemma agregar_nil (st : GeneradorLeads) : agregar st [] [] = st.
Proof. destruct st; unfold agregar; simpl. now rewrite !app_nil_r. Qed.

Lemma agregar_agregar (st : GeneradorLeads) l1 e1 l2 e2 :
  agregar (agregar st l1 e1) l2 e2 = agregar st (l1 ++ l2) (e1 ++ e2).
Proof. unfold agregar; simpl. now rewrite !app_assoc. Qed.

Lemma emit_eq (e : evento) (st : GeneradorLeads) :
  emit e st = (inr tt, agregar st [] [e]).
Proof. unfold emit, agregar. now rewrite app_nil_r. Qed.

Lemma print_eq (m : mensaje) (st : GeneradorLeads) :
  print m st = (inr tt, agregar st [] [Print m]).
Proof. apply emit_eq. Qed.

Lemma leads_append_eq (lead : Lead) (st : GeneradorLeads) :
  leads_append lead st = (inr tt, agregar st [lead] []).
Proof. unfold leads_append, agregar. now rewrite app_nil_r. Qed.

Section Extraccion.
Variable float_de_str : string -> option Float64.t.
Variable ahora : nat -> string.

(** One turn of the loop: the lead is appended and announced, or the
    exception is reported and nothing else changes. *)
Lemma procesar_negocio_eq (negocio : valor) (tipo : string)
  (st : GeneradorLeads) :
  procesar_negocio float_de_str ahora negocio tipo st =
  match extraer_lead float_de_str (ciudad st) tipo
          (ahora (List.length (leads st))) negocio with
  | inr lead =>
      (inr tt,
       agregar st [lead]
         [Print (MsgEncontrado (Nombre lead) (Prioridad lead))])
  | inl e => (inr tt, agregar st [] [Print (MsgErrorNegocio e)])
  end.
Proof.
  destruct negocio as [| b | n | x | s | l | d];
    try (unfold procesar_negocio, try_except, bind, lift; simpl;
         apply print_eq).
  unfold procesar_negocio, extraer_lead, extraer_rating, extraer_telefono.
  unfold try_except, bind, lift, ret, raise, get_self, negocio_get.
  set (tel := dict_get d "phone" (VStr SENTINELA)).
  set (rs := dict_get d "rating" (VStr "0")).
  destruct (eq_str tel SENTINELA);
    (destruct (truthy rs);
     [ destruct (py_float float_de_str rs) as [[]|r] | ]);
    try apply print_eq;
    rewrite leads_append_eq, print_eq, agregar_agregar; reflexivity.
Qed.

(** Success of an extraction does not depend on city, category or
    clock. *)
Lemma extraer_lead_ok (c t f : string) (negocio : valor) :
  extraccion_ok float_de_str negocio = true ->
  exists lead, extraer_lead float_de_str c t f negocio = inr lead.
Proof.
  unfold extraccion_ok, extraer_lead.
  destruct negocio; try discriminate.
  destruct (extraer_rating float_de_str d); [discriminate | eauto].
Qed.

Lemma extraer_lead_falla (c t f : string) (negocio : valor) :
  extraccion_ok float_de_str negocio = false ->
  exists e, extraer_lead float_de_str c t f negocio = inl e.
Proof.
  unfold extraccion_ok, extraer_lead.
  destruct negocio; eauto.
  destruct (extraer_rating float_de_str d); [eauto | discriminate].
Qed.

(** The whole loop. *)
Lemma for_each_procesar_eq (tipo : string) (negocios : list valor) :
  forall st,
    for_each negocios
      (fun negocio => procesar_negocio float_de_str ahora negocio tipo) st =
    (inr tt,
     agregar st
       (leads_extraidos float_de_str ahora (ciudad st) tipo
          (List.length (leads st)) negocios)
       (eventos_extraccion float_de_str ahora (ciudad st) tipo
          (List.length (leads st)) negocios)).
Proof.
  induction negocios as [| negocio resto IH]; intros st; simpl.
  - now rewrite agregar_nil.
  - unfold bind. rewrite procesar_negocio_eq.
    destruct (extraer_lead float_de_str (ciudad st) tipo
                (ahora (List.length (leads st))) negocio) as [e | lead].
    + rewrite IH, agregar_agregar. simpl.
      now rewrite app_nil_r.
    + rewrite IH, agregar_agregar. simpl.
      rewrite length_app. simpl. now rewrite Nat.add_1_r.
Qed.

Lemma leads_extraidos_Forall2 (c tipo : string) (negocios : list valor) :
  forall n,
    Forall2
      (fun negocio lead =>
         exists fecha,
           extraer_lead float_de_str c tipo fecha negocio = inr lead)
      (filter (extraccion_ok float_de_str) negocios)
      (leads_extraidos float_de_str ahora c tipo n negocios).
Proof.
  induction negocios as [| negocio resto IH]; intros n; simpl.
  - constructor.
  - destruct (extraccion_ok float_de_str negocio) eqn:Hok.
    + destruct (extraer_lead_ok c tipo (ahora n) negocio Hok) as [lead Hl].
      rewrite Hl. constructor; eauto.
    + destruct (extraer_lead_falla c tipo (ahora n) negocio Hok) as [e He].
      rewrite He. apply IH.
Qed.

(** C7: in [_procesar_resultados] a record whose extraction raises is
    skipped and the loop goes on: the leads appended are those of the
    records whose extraction succeeds, one each and in order. *)
Theorem procesar_resultados_omite_fallidos
  (resultados : valor) (negocios : list valor) (tipo : string)
  (st : GeneradorLeads) :
  iterar resultados = inr negocios ->
  exists nuevos evs,
    _procesar_resultados float_de_str ahora resultados tipo st =
      (inr tt, agregar st nuevos evs)
    /\ List.length nuevos =
         List.length (filter (extraccion_ok float_de_str) negocios)
    /\ Forall2
         (fun negocio lead =>
            exists fecha,
              extraer_lead float_de_str (ciudad st) tipo fecha negocio
              = inr lead)
         (filter (extraccion_ok float_de_str) negocios) nuevos.
Proof.
  intros Hit.
  exists (leads_extraidos float_de_str ahora (ciudad st) tipo
            (List.length (leads st)) negocios),
         (eventos_extraccion float_de_str ahora (ciudad st) tipo
            (List.length (leads st)) negocios).
  assert (HF := leads_extraidos_Forall2 (ciudad st) tipo negocios
                  (List.length (leads st))).
  split; [| split].
  - unfold _procesar_resultados, bind, lift. rewrite Hit.
    apply for_each_procesar_eq.
  - symmetry. eapply Forall2_length. exact HF.
  - exact HF.
Qed.

End Extraccion.

(** A list of three records: the second has no [get] method, the third
    has a rating [float] rejects with [TypeError]; the first and the last
    are extracted. *)
Lemma procesar_resultados_omite_fallidos_witness :
  let resultados :=
    VList [VDict [("title", VStr "ABC Clinic"); ("rating", VStr "4.5");
                  ("website", VStr "http://abc.com")];
           VStr "ruido";
           VDict [("title", VStr "Roto"); ("rating", VList [VInt 4])];
           VDict [("title", VStr "XYZ Shop"); ("rating", VStr "3.2")]] in
  exists nuevos evs,
    _procesar_resultados float_de_decimal (fun _ => "2024-01-01 00:00:00")
      resultados "Clínicas" (__init__ "k" "Madrid")
    = (inr tt, agregar (__init__ "k" "Madrid") nuevos evs)
    /\ List.length nuevos = 2%nat.
Proof.
  intros resultados.
  destruct (procesar_resultados_omite_fallidos float_de_decimal
              (fun _ => "2024-01-01 00:00:00") resultados
              [VDict [("title", VStr "ABC Clinic"); ("rating", VStr "4.5");
                      ("website", VStr "http://abc.com")];
               VStr "ruido";
               VDict [("title", VStr "Roto"); ("rating", VList [VInt 4])];
               VDict [("title", VStr "XYZ Shop"); ("rating", VStr "3.2")]]
              "Clínicas" (__init__ "k" "Madrid") eq_refl)
    as (nuevos & evs & Heq & Hlen & _).
  exists nuevos, evs. split; [exact Heq | exact Hlen].
Defined.

(** *** The rating (lines 82-87) *)

(** The record of the specification's example: rating "3.2", no website. *)
Example ejemplo_xyz_shop :
  extraer_lead float_de_decimal "Madrid" "Clínicas" "2024-01-01 00:00:00"
    (VDict [("title", VStr "XYZ Shop"); ("rating", VStr "3.2")])
  = inr {| Nombre := VStr "XYZ Shop";
           Direccion := VStr "No disponible";
           Telefono := VStr "No disponible";
           Calificacion := S754_finite false 7205759403792794 (-51);
           Sitio_Web := VStr "No disponible";
           Tipo_Negocio := "Clínicas";
           Prioridad := "ALTA PRIORIDAD";
           Fecha_Extraccion := "2024-01-01 00:00:00";
           Ciudad := "Madrid" |}.
Proof. reflexivity. Qed.

Example ejemplo_abc_clinic :
  option_map Prioridad
    (match extraer_lead float_de_decimal "Madrid" "Clínicas" ""
             (VDict [("title", VStr "ABC Clinic"); ("rating", VStr "4.5");
                     ("website", VStr "http://abc.com")]) with
     | inr lead => Some lead
     | inl _ => None
     end)
  = Some "Normal".
Proof. reflexivity. Qed.

(** Where the inner handler does its work: a rating that is absent, null,
    empty, or a string [float] refuses gives 0.0 and the record becomes a
    lead. *)
Lemma extraer_rating_por_defecto
  (float_de_str : string -> option Float64.t) (d : list (string * valor)) :
  float_de_str "0" = Some Float64.zero ->
  dict_lookup d "rating" = None
  \/ dict_lookup d "rating" = Some VNone
  \/ (exists s, dict_lookup d "rating" = Some (VStr s)
                /\ float_de_str s = None) ->
  extraer_rating float_de_str d = inr Float64.zero
  /\ extraccion_ok float_de_str (VDict d) = true.
Proof.
  intros H0 H.
  assert (Hr : extraer_rating float_de_str d = inr Float64.zero).
  { unfold extraer_rating, dict_get.
    destruct H as [-> | [-> | (s & -> & Hs)]]; simpl.
    - now rewrite H0.
    - reflexivity.
    - destruct (negb (s =? "")%string); [now rewrite Hs | reflexivity]. }
  split; [exact Hr|].
  unfold extraccion_ok, extraer_lead. now rewrite Hr.
Qed.

(** A rating that is a non-empty JSON array makes [float] raise
    [TypeError]; the inner handler catches [ValueError] only, so the
    exception reaches the handler of the loop, which reports it and skips
    the record: no lead is appended. *)
Lemma rating_lista_omite_registro
  (float_de_str : string -> option Float64.t) (ahora : nat -> string)
  (tipo : string) (st : GeneradorLeads) :
  procesar_negocio float_de_str ahora
    (VDict [("title", VStr "XYZ Shop");
            ("rating", VList [VFloat (S754_finite false 5066549580791808 (-50))])])
    tipo st
  = (inr tt, agregar st [] [Print (MsgErrorNegocio TypeError)]).
Proof. rewrite procesar_negocio_eq. reflexivity. Qed.

(** The same for an integer too large for a float. *)
Lemma rating_entero_enorme_omite_registro
  (float_de_str : string -> option Float64.t) (ahora : nat -> string)
  (tipo : string) (st : GeneradorLeads) :
  procesar_negocio float_de_str ahora
    (VDict [("title", VStr "XYZ Shop"); ("rating", VInt (2 ^ 1024))]) tipo st
  = (inr tt, agregar st [] [Print (MsgErrorNegocio OverflowError)]).
Proof. rewrite procesar_negocio_eq. reflexivity. Qed.

(** C2 as stated fails: the rating of this record cannot be read as a
    number, yet the record is not turned into a lead with rating 0.0; it
    is reported and skipped. *)
Lemma rating_lista_contraejemplo :
  let negocio :=
    VDict [("title", VStr "XYZ Shop"); ("rating", VList [VFloat f4_5])] in
  let st := generador_de_ejemplo [] in
  procesar_negocio float_de_decimal reloj_de_ejemplo negocio "Clínicas" st
  = (inr tt, agregar st [] [Print (MsgErrorNegocio TypeError)])
  /\ leads (snd (procesar_negocio float_de_decimal reloj_de_ejemplo negocio
                   "Clínicas" st)) = [].
Proof. split; reflexivity. Qed.

(** C2, amended: handling a raw record never raises out of the loop.  If
    the rating field is missing, or its value is falsy (null, zero, empty)
    or a string that [float] refuses, the rating of the lead is 0.0 and the
    record is turned into a lead.  A rating that is a non-empty array or
    object is an extraction failure like any other: the record is reported
    and skipped. *)
Theorem rating_extraido
  (float_de_str : string -> option Float64.t) (ahora : nat -> string)
  (negocio : valor) (tipo : string) (st : GeneradorLeads) :
  fst (procesar_negocio float_de_str ahora negocio tipo st) = inr tt
  /\ (forall d,
        negocio = VDict d ->
        float_de_str "0" = Some Float64.zero ->
        dict_lookup d "rating" = None
        \/ (exists v, dict_lookup d "rating" = Some v /\ truthy v = false)
        \/ (exists s, dict_lookup d "rating" = Some (VStr s)
                      /\ float_de_str s = None) ->
        exists lead,
          procesar_negocio float_de_str ahora negocio tipo st
          = (inr tt,
             agregar st [lead]
               [Print (MsgEncontrado (Nombre lead) (Prioridad lead))])
          /\ Calificacion lead = Float64.zero)
  /\ (forall d v,
        negocio = VDict d ->
        dict_lookup d "rating" = Some v ->
        truthy v = true ->
        (exists l, v = VList l) \/ (exists d', v = VDict d') ->
        procesar_negocio float_de_str ahora negocio tipo st
        = (inr tt, agregar st [] [Print (MsgErrorNegocio TypeError)])).
Proof.
  split; [|split].
  - rewrite procesar_negocio_eq.
    destruct (extraer_lead _ _ _ _ _); reflexivity.
  - intros d -> H0 H.
    assert (Hr : extraer_rating float_de_str d = inr Float64.zero).
    { unfold extraer_rating, dict_get.
      destruct H as [-> | [(v & -> & Hv) | (s & -> & Hs)]].
      - simpl. now rewrite H0.
      - now rewrite Hv.
      - simpl. destruct (negb (s =? "")%string);
          [now rewrite Hs | reflexivity]. }
    rewrite procesar_negocio_eq. unfold extraer_lead. rewrite Hr.
    eexists. split; reflexivity.
  - intros d v -> Hv Ht Hforma.
    rewrite procesar_negocio_eq. unfold extraer_lead, extraer_rating, dict_get.
    rewrite Hv, Ht.
    destruct Hforma as [(l & ->) | (d' & ->)]; reflexivity.
Qed.

Lemma rating_extraido_witness :
  let d := [("title", VStr "Clinica Sur"); ("rating", VStr "cuatro")] in
  let st := generador_de_ejemplo [] in
  fst (procesar_negocio float_de_decimal reloj_de_ejemplo (VDict d)
         "Clínicas" st) = inr tt
  /\ exists lead,
       procesar_negocio float_de_decimal reloj_de_ejemplo (VDict d)
         "Clínicas" st
       = (inr tt,
          agregar st [lead]
            [Print (MsgEncontrado (Nombre lead) (Prioridad lead))])
       /\ Calificacion lead = Float64.zero.
Proof.
  intros d st.
  destruct (rating_extraido float_de_decimal reloj_de_ejemplo (VDict d)
              "Clínicas" st) as (H1 & H2 & _).
  split; [exact H1|].
  apply (H2 d eq_refl eq_refl).
  right. right. exists "cuatro". split; reflexivity.
Defined.

(** *** The phone (lines 77-80) *)

Lemma extraer_telefono_eq (d : list (string * valor)) :
  extraer_telefono d =
  if sin_dato d "phone"
  then dict_get d "phone_number" (VStr SENTINELA)
  else dict_get d "phone" (VStr SENTINELA).
Proof.
  unfold extraer_telefono, sin_dato, dict_get.
  destruct (dict_lookup d "phone"); reflexivity.
Qed.

Lemma extraer_telefono_sentinela (d : list (string * valor)) :
  extraer_telefono d = VStr SENTINELA
  <-> sin_dato d "phone" = true /\ sin_dato d "phone_number" = true.
Proof.
  rewrite extraer_telefono_eq. unfold sin_dato, dict_get.
  destruct (dict_lookup d "phone") as [v |];
    [destruct (eq_str v SENTINELA) eqn:Hv |];
    destruct (dict_lookup d "phone_number") as [v' |];
    rewrite <- ?eq_str_true; intuition congruence.
Qed.

(** C8 as stated fails: a ["phone"] field that is present but holds the
    sentinel string is passed over in favour of ["phone_number"], and the
    phone is the sentinel although a field is present. *)
Lemma telefono_primer_campo_contraejemplo :
  (let d := [("phone", VStr "No disponible");
             ("phone_number", VStr "600 000 000")] in
   map Telefono
     (leads (snd (procesar_negocio float_de_decimal (fun _ => "") (VDict d)
                    "Clínicas" (__init__ "k" "Madrid"))))
   = [VStr "600 000 000"]
   /\ telefono_segun_spec d = VStr "No disponible"
   /\ VStr "600 000 000" <> telefono_segun_spec d)
  /\ (let d := [("phone", VStr "No disponible")] in
      map Telefono
        (leads (snd (procesar_negocio float_de_decimal (fun _ => "") (VDict d)
                       "Clínicas" (__init__ "k" "Madrid"))))
      = [VStr "No disponible"]
      /\ ~ (dict_lookup d "phone" = None
            /\ dict_lookup d "phone_number" = None)).
Proof.
  split; cbv zeta.
  - repeat split. discriminate.
  - split; [reflexivity|]. intros [H _]. discriminate H.
Qed.

(** C8, amended: a field counts only when it is present with a value
    other than the sentinel string.  Whenever the record becomes a lead,
    its phone is the value of ["phone"] if that field counts, otherwise
    the value of ["phone_number"] or the sentinel when that one is absent;
    it is the sentinel exactly when neither field counts. *)
Theorem telefono_extraido
  (float_de_str : string -> option Float64.t) (ahora : nat -> string)
  (d : list (string * valor)) (tipo : string) (st : GeneradorLeads)
  (lead : Lead) (evs : list evento) :
  procesar_negocio float_de_str ahora (VDict d) tipo st
  = (inr tt, agregar st [lead] evs) ->
  Telefono lead =
    (if sin_dato d "phone"
     then dict_get d "phone_number" (VStr SENTINELA)
     else dict_get d "phone" (VStr SENTINELA))
  /\ (Telefono lead = VStr SENTINELA
      <-> sin_dato d "phone" = true /\ sin_dato d "phone_number" = true).
Proof.
  rewrite procesar_negocio_eq. unfold extraer_lead.
  destruct (extraer_rating float_de_str d) as [e | r]; intros [= Hl _].
  - unfold agregar in Hl. apply (f_equal (@List.length Lead)) in Hl.
    rewrite !length_app in Hl. simpl in Hl. lia.
  - apply app_inv_head in Hl. injection Hl as <-. simpl.
    split; [apply extraer_telefono_eq | apply extraer_telefono_sentinela].
Qed.

Lemma telefono_extraido_witness :
  let d := [("title", VStr "Taller Uno"); ("phone_number", VStr "925 000 000")] in
  exists lead,
    Telefono lead = VStr "925 000 000"
    /\ (Telefono lead = VStr SENTINELA
        <-> sin_dato d "phone" = true /\ sin_dato d "phone_number" = true).
Proof.
  intros d. eexists.
  eapply (telefono_extraido float_de_decimal (fun _ => "") d
            "Talleres mecánicos" (__init__ "k" "Toledo")).
  rewrite procesar_negocio_eq. simpl. reflexivity.
Defined.

(** ** The order of binary64 numbers *)

Ltac caso_comparacion :=
  repeat match goal with
  | |- context [Z.compare ?a ?b] => destruct (Z.compare_spec a b)
  | |- context [Pos.compare ?a ?b] => destruct (Pos.compare_spec a b)
  | H : context [Z.compare ?a ?b] |- _ => destruct (Z.compare_spec a b)
  | H : context [Pos.compare ?a ?b] |- _ => destruct (Pos.compare_spec a b)
  end.

Lemma SFcompare_antisym (a b : spec_float) :
  SFcompare b a = option_map CompOpp (SFcompare a b).
Proof.
  destruct a as [sa | sa | | sa ma ea], b as [sb | sb | | sb mb eb];
    try destruct sa; try destruct sb; simpl; try reflexivity;
    change (Pos.compare_cont Eq) with Pos.compare;
    rewrite (Z.compare_antisym ea eb), (Pos.compare_antisym ma mb);
    destruct (ea ?= eb), (ma ?= mb)%positive; reflexivity.
Qed.

Lemma SFleb_trans (a b c : spec_float) :
  SFleb a b = true -> SFleb b c = true -> SFleb a c = true.
Proof.
  unfold SFleb.
  destruct a as [sa | sa | | sa ma ea], b as [sb | sb | | sb mb eb],
           c as [sc | sc | | sc mc ec];
    try destruct sa; try destruct sb; try destruct sc; simpl;
    try reflexivity; try discriminate;
    change (Pos.compare_cont Eq) with Pos.compare;
    intros H1 H2; caso_comparacion; simpl in *;
    try reflexivity; try discriminate; try lia.
Qed.

Lemma SFcompare_nan (a b : spec_float) :
  SFcompare a b = None <-> Float64.is_nan a = true \/ Float64.is_nan b = true.
Proof.
  destruct a, b; simpl; intuition discriminate.
Qed.

Lemma SFleb_total (a b : spec_float) :
  Float64.is_nan a = false -> Float64.is_nan b = false ->
  SFleb a b = false -> SFleb b a = true.
Proof.
  intros Ha Hb. unfold SFleb. rewrite (SFcompare_antisym a b).
  destruct (SFcompare a b) as [[]|] eqn:Hc; simpl; try easy.
  apply SFcompare_nan in Hc. destruct Hc; congruence.
Qed.

Lemma SFleb_no_nan (a b : spec_float) :
  SFleb a b = true -> Float64.is_nan a = false /\ Float64.is_nan b = false.
Proof. destruct a, b; simpl; auto; discriminate. Qed.

(** The order of the ratings in the export is total and transitive, NaN
    included. *)
Lemma calificacion_leb_total (a b : Float64.t) :
  calificacion_leb a b = false -> calificacion_leb b a = true.
Proof.
  unfold calificacion_leb, Float64.leb.
  destruct (Float64.is_nan b) eqn:Hb; [discriminate|].
  destruct (Float64.is_nan a) eqn:Ha; [reflexivity|].
  now apply SFleb_total.
Qed.

Lemma calificacion_leb_trans (a b c : Float64.t) :
  calificacion_leb a b = true -> calificacion_leb b c = true ->
  calificacion_leb a c = true.
Proof.
  unfold calificacion_leb, Float64.leb.
  destruct (Float64.is_nan c) eqn:Hc; [reflexivity|].
  destruct (Float64.is_nan b) eqn:Hb; [discriminate|].
  destruct (Float64.is_nan a) eqn:Ha; [discriminate|].
  intros H1 H2. exact (SFleb_trans c b a H2 H1).
Qed.

Lemma calificacion_leb_no_creciente (a b : Float64.t) :
  calificacion_leb a b = true -> Float64.ltb a b = false.
Proof.
  unfold calificacion_leb, Float64.leb, Float64.ltb, SFleb, SFltb.
  destruct (Float64.is_nan b) eqn:Hb.
  - destruct b; try discriminate. now destruct a.
  - destruct (Float64.is_nan a); [discriminate|].
    rewrite (SFcompare_antisym a b).
    destruct (SFcompare a b) as [[]|]; simpl; easy.
Qed.

Lemma calificacion_leb_equiv (a b : Float64.t) :
  calificacion_leb a b && calificacion_leb b a
  = Float64.eqb a b || (Float64.is_nan a && Float64.is_nan b).
Proof.
  unfold calificacion_leb, Float64.leb, Float64.eqb, SFleb, SFeqb.
  rewrite (SFcompare_antisym a b).
  destruct a as [sa | sa | | sa ma ea], b as [sb | sb | | sb mb eb];
    try reflexivity; cbn [Float64.is_nan];
    destruct (SFcompare _ _) as [[]|]; reflexivity.
Qed.

(** ** The stable sort *)

Section OrdenEstable.
Context {A : Type} (leb : A -> A -> bool).
Hypothesis leb_total : forall a b, leb a b = false -> leb b a = true.
Hypothesis leb_trans :
  forall a b c, leb a b = true -> leb b c = true -> leb a c = true.

Let le (a b : A) : Prop := leb a b = true.

Lemma insertar_perm (x : A) (l : list A) :
  Permutation (insertar leb x l) (x :: l).
Proof.
  induction l as [| y l IH]; simpl; [reflexivity|].
  destruct (leb x y); [reflexivity|].
  rewrite IH. apply perm_swap.
Qed.

Lemma ordenar_perm (l : list A) : Permutation (ordenar leb l) l.
Proof.
  induction l as [| x l IH]; simpl; [reflexivity|].
  rewrite insertar_perm. now constructor.
Qed.

Lemma insertar_sorted (x : A) (l : list A) :
  StronglySorted le l -> StronglySorted le (insertar leb x l).
Proof.
  induction 1 as [| y l Hs IH Hall]; simpl.
  - repeat constructor.
  - destruct (leb x y) eqn:Hxy.
    + constructor; [now constructor|].
      constructor; [exact Hxy|].
      eapply Forall_impl; [|exact Hall].
      intros z Hz. exact (leb_trans _ _ _ Hxy Hz).
    + constructor; [exact IH|].
      eapply Permutation_Forall; [symmetry; apply insertar_perm|].
      constructor; [now apply leb_total | exact Hall].
Qed.

Lemma ordenar_sorted (l : list A) : StronglySorted le (ordenar leb l).
Proof.
  induction l as [| x l IH]; simpl; [constructor | now apply insertar_sorted].
Qed.

(** Stability: the elements the order does not tell apart from [z] stay
    in their original order. *)
Lemma insertar_estable (z x : A) (l : list A) :
  filter (fun y => leb z y && leb y z) (insertar leb x l)
  = filter (fun y => leb z y && leb y z) (x :: l).
Proof.
  induction l as [| y l IH]; [reflexivity|].
  cbn [insertar]. destruct (leb x y) eqn:Hxy; [reflexivity|].
  cbn [filter] in *. rewrite IH.
  destruct (leb z x && leb x z) eqn:Hx; [|reflexivity].
  destruct (leb z y && leb y z) eqn:Hy; [|reflexivity].
  apply andb_prop in Hx, Hy.
  rewrite (leb_trans x z y) in Hxy; [discriminate | tauto | tauto].
Qed.

Lemma ordenar_estable (z : A) (l : list A) :
  filter (fun y => leb z y && leb y z) (ordenar leb l)
  = filter (fun y => leb z y && leb y z) l.
Proof.
  induction l as [| x l IH]; [reflexivity|].
  cbn [ordenar]. rewrite insertar_estable. cbn [filter]. now rewrite IH.
Qed.

(** A sorted list splits into the elements of a class closed towards the
    front, followed by the others. *)
Lemma sorted_particion (P : A -> bool) (l : list A) :
  (forall a b, le a b -> P b = true -> P a = true) ->
  StronglySorted le l ->
  l = (filter P l ++ filter (fun a => negb (P a)) l)%list.
Proof.
  intros HP. induction 1 as [| x l Hs IH Hall]; [reflexivity|].
  cbn [filter]. destruct (P x) eqn:Hx; cbn [negb app].
  - now rewrite <- IH.
  - assert (Hno : forall y, In y l -> P y = false).
    { intros y Hy. rewrite Forall_forall in Hall.
      destruct (P y) eqn:Hpy; [|reflexivity].
      rewrite (HP x y (Hall y Hy) Hpy) in Hx. discriminate. }
    assert (H1 : filter P l = []).
    { clear -Hno. induction l as [| y l IHl]; [reflexivity|].
      cbn [filter]. rewrite (Hno y (or_introl eq_refl)).
      apply IHl. intros; apply Hno; now right. }
    assert (H2 : filter (fun a => negb (P a)) l = l).
    { clear -Hno. induction l as [| y l IHl]; [reflexivity|].
      cbn [filter]. rewrite (Hno y (or_introl eq_refl)). cbn [negb].
      f_equal. apply IHl. intros; apply Hno; now right. }
    now rewrite H1, H2.
Qed.

Lemma StronglySorted_filter (R : A -> A -> Prop) (P : A -> bool)
  (l : list A) :
  StronglySorted R l -> StronglySorted R (filter P l).
Proof.
  induction 1 as [| x l Hs IH Hall]; cbn [filter]; [constructor|].
  destruct (P x); [|exact IH].
  constructor; [exact IH|].
  rewrite Forall_forall in *. intros y Hy.
  apply filter_In in Hy. now apply Hall.
Qed.

End OrdenEstable.

Lemma StronglySorted_impl {A} (R S : A -> A -> Prop) (l : list A) :
  (forall a b, In a l -> In b l -> R a b -> S a b) ->
  StronglySorted R l -> StronglySorted S l.
Proof.
  intros HRS Hs. induction Hs as [| x l Hs IH Hall]; [constructor|].
  constructor.
  - apply IH. intros a b Ha Hb. apply HRS; now right.
  - rewrite Forall_forall in *. intros y Hy.
    apply HRS; [now left | now right | now apply Hall].
Qed.

(** ** The export: guardar_csv *)

Lemma Prioridad_Orden_es_alta (x : Lead) :
  Prioridad_Orden (Prioridad x) = if es_alta x then 0 else 1.
Proof. reflexivity. Qed.

Lemma lead_leb_total (a b : Lead) :
  lead_leb a b = false -> lead_leb b a = true.
Proof.
  unfold lead_leb, clave_leb; cbn [fst snd].
  generalize (calificacion_leb_total (Calificacion a) (Calificacion b)).
  destruct (calificacion_leb (Calificacion a) (Calificacion b)),
           (calificacion_leb (Calificacion b) (Calificacion a));
    intros Hc; try (specialize (Hc eq_refl); discriminate);
    rewrite ?andb_true_r, ?andb_false_r, ?orb_false_r; lia.
Qed.

Lemma lead_leb_trans (a b c : Lead) :
  lead_leb a b = true -> lead_leb b c = true -> lead_leb a c = true.
Proof.
  unfold lead_leb, clave_leb; cbn [fst snd].
  generalize (calificacion_leb_trans (Calificacion a) (Calificacion b)
                (Calificacion c)).
  destruct (calificacion_leb (Calificacion a) (Calificacion b)),
           (calificacion_leb (Calificacion b) (Calificacion c)),
           (calificacion_leb (Calificacion a) (Calificacion c));
    intros Hc; try (specialize (Hc eq_refl eq_refl); discriminate);
    rewrite ?andb_true_r, ?andb_false_r, ?orb_false_r; lia.
Qed.

Lemma lead_leb_equiv (a b : Lead) :
  lead_leb a b && lead_leb b a = misma_clave a b.
Proof.
  unfold lead_leb, clave_leb, misma_clave; cbn [fst snd].
  rewrite <- calificacion_leb_equiv.
  destruct (calificacion_leb (Calificacion a) (Calificacion b)),
           (calificacion_leb (Calificacion b) (Calificacion a));
    rewrite ?andb_true_r, ?andb_false_r, ?orb_false_r; lia.
Qed.

Lemma lead_leb_alta (a b : Lead) :
  lead_leb a b = true -> es_alta b = true -> es_alta a = true.
Proof.
  unfold lead_leb, clave_leb; cbn [fst snd].
  rewrite !Prioridad_Orden_es_alta.
  destruct (es_alta a), (es_alta b); simpl; intros; congruence.
Qed.

Lemma lead_leb_no_creciente (a b : Lead) :
  es_alta a = es_alta b -> lead_leb a b = true -> no_creciente a b.
Proof.
  unfold lead_leb, clave_leb, no_creciente; cbn [fst snd].
  rewrite !Prioridad_Orden_es_alta. intros ->.
  destruct (es_alta b); simpl; apply calificacion_leb_no_creciente.
Qed.

(** Sorting the table with its extra column and dropping the column is
    sorting the leads. *)
Lemma filas_csv_eq (l : list Lead) : filas_csv l = ordenar lead_leb l.
Proof.
  unfold filas_csv, drop_Prioridad_Orden, sort_values, con_Prioridad_Orden,
    DataFrame.
  set (f := fun fila : Lead => (fila, Prioridad_Orden (Prioridad fila))).
  assert (Hins : forall x m,
             insertar clave_leb (f x) (map f m) = map f (insertar lead_leb x m)).
  { intros x m. induction m as [| y m IH]; [reflexivity|].
    cbn [map insertar]. change (clave_leb (f x) (f y)) with (lead_leb x y).
    destruct (lead_leb x y); cbn [map]; [reflexivity | now rewrite IH]. }
  assert (Hord : ordenar clave_leb (map f l) = map f (ordenar lead_leb l)).
  { induction l as [| x l IH]; [reflexivity|].
    cbn [map ordenar]. now rewrite IH, Hins. }
  rewrite Hord, map_map. cbn [f fst]. apply map_id.
Qed.

Lemma guardar_csv_eq (filename : string) (st : GeneradorLeads) :
  guardar_csv filename st =
  match leads st with
  | [] => (inr tt, agregar st [] [Print MsgNoHayLeads])
  | _ :: _ =>
      (inr tt,
       agregar st []
         (ToCsv filename (filas_csv (leads st))
          :: estadisticas (List.length (leads st)) filename
               (filas_csv (leads st))))
  end.
Proof.
  unfold guardar_csv, bind, get_self, print.
  destruct (leads st) as [| l ls] eqn:Hl; [apply emit_eq|].
  fold (filas_csv (l :: ls)).
  rewrite !emit_eq, !agregar_agregar. reflexivity.
Qed.

(** C3: the rows written by [guardar_csv] are the leads, reordered so
    that every "ALTA PRIORIDAD" row comes before every other row, ratings
    never increase inside either group, and rows with the same priority
    rank and the same rating keep the order they had in [self.leads]. *)
Theorem guardar_csv_ordenado (filename : string) (st : GeneradorLeads)
  (l : Lead) (ls : list Lead) :
  leads st = l :: ls ->
  let filas := filas_csv (leads st) in
  guardar_csv filename st =
    (inr tt,
     agregar st []
       (ToCsv filename filas
        :: estadisticas (List.length (leads st)) filename filas))
  /\ Permutation filas (leads st)
  /\ filas = (filtrar_alta filas ++ filter (fun x => negb (es_alta x)) filas)%list
  /\ StronglySorted no_creciente (filtrar_alta filas)
  /\ StronglySorted no_creciente (filter (fun x => negb (es_alta x)) filas)
  /\ (forall x, filter (misma_clave x) filas = filter (misma_clave x) (leads st)).
Proof.
  intros Hl filas.
  assert (Hs : StronglySorted (fun a b => lead_leb a b = true) filas).
  { unfold filas. rewrite filas_csv_eq.
    apply ordenar_sorted; [exact lead_leb_total | exact lead_leb_trans]. }
  split; [|split; [|split; [|split; [|split]]]].
  - unfold filas. rewrite guardar_csv_eq, Hl. reflexivity.
  - unfold filas. rewrite filas_csv_eq. apply ordenar_perm.
  - apply (sorted_particion lead_leb es_alta filas lead_leb_alta Hs).
  - apply (StronglySorted_filter _ es_alta) in Hs.
    revert Hs. apply StronglySorted_impl.
    intros a b Ha Hb. apply lead_leb_no_creciente.
    apply filter_In in Ha, Hb. destruct Ha as [_ ->], Hb as [_ ->].
    reflexivity.
  - apply (StronglySorted_filter _ (fun x => negb (es_alta x))) in Hs.
    revert Hs. apply StronglySorted_impl.
    intros a b Ha Hb. apply lead_leb_no_creciente.
    apply filter_In in Ha, Hb. destruct Ha as [_ Ha], Hb as [_ Hb].
    destruct (es_alta a), (es_alta b); easy.
  - intros x. unfold filas. rewrite filas_csv_eq.
    rewrite <- (filter_ext _ _ (lead_leb_equiv x)).
    rewrite <- (filter_ext _ _ (lead_leb_equiv x) (leads st)).
    apply ordenar_estable. exact lead_leb_trans.
Qed.

(** ** A category query: buscar_negocios *)

Lemma n_solicitudes_app (a b : list evento) :
  n_solicitudes (a ++ b) = (n_solicitudes a + n_solicitudes b)%nat.
Proof.
  induction a as [| [] a IH]; simpl; auto.
Qed.

Lemma solicitudes_app (a b : list evento) :
  solicitudes (a ++ b) = (solicitudes a ++ solicitudes b)%list.
Proof.
  induction a as [| [] a IH]; simpl; auto. now rewrite IH.
Qed.

Lemma csvs_app (a b : list evento) : csvs (a ++ b) = (csvs a ++ csvs b)%list.
Proof.
  induction a as [| [] a IH]; simpl; auto. now rewrite IH.
Qed.

Lemma n_solicitudes_length (t : list evento) :
  n_solicitudes t = List.length (solicitudes t).
Proof. induction t as [| [] t IH]; simpl; auto. Qed.

Section Consulta.
Variable float_de_str : string -> option Float64.t.
Variable red : nat -> solicitud -> resultado respuesta.
Variable ahora : nat -> string.

Lemma eventos_extraccion_solo_print (c t : string) (negocios : list valor) :
  forall n,
    solicitudes (eventos_extraccion float_de_str ahora c t n negocios) = []
    /\ csvs (eventos_extraccion float_de_str ahora c t n negocios) = [].
Proof.
  induction negocios as [| x r IH]; intros n; simpl; [auto|].
  destruct (extraer_lead float_de_str c t (ahora n) x); simpl; apply IH.
Qed.

Lemma procesar_resultados_eq (resultados : valor) (tipo : string)
  (st : GeneradorLeads) :
  _procesar_resultados float_de_str ahora resultados tipo st =
  match iterar resultados with
  | inl e => (inl e, st)
  | inr negocios =>
      (inr tt,
       agregar st
         (leads_extraidos float_de_str ahora (ciudad st) tipo
            (List.length (leads st)) negocios)
         (eventos_extraccion float_de_str ahora (ciudad st) tipo
            (List.length (leads st)) negocios))
  end.
Proof.
  unfold _procesar_resultados, bind, lift.
  destruct (iterar resultados); [reflexivity | apply for_each_procesar_eq].
Qed.

Lemma manejador_eq (e : excepcion) (st : GeneradorLeads) :
  match e with
  | RequestException _ => print (MsgErrorHTTP e)
  | JSONDecodeError _ => print (MsgErrorJSON e)
  | _ => print (MsgErrorInesperado e)
  end st
  = (inr tt, agregar st [] [Print (mensaje_error e)]).
Proof. destruct e; apply print_eq. Qed.

(** A query in full: the announcement, the one request, and what follows
    from its outcome. *)
Lemma buscar_negocios_eq (tipo : string) (max : Z) (st : GeneradorLeads) :
  buscar_negocios float_de_str red ahora tipo max st =
  let params := params_de st tipo max in
  let inicio := [Print (MsgBuscando tipo (ciudad st)); HttpGet params] in
  match desenlace_de (red (n_solicitudes (traza st)) params) with
  | Falla e =>
      (inr tt, agregar st [] (inicio ++ [Print (mensaje_error e)]))
  | SinResultados datos =>
      (inr tt,
       agregar st []
         (inicio ++ [Print MsgSinResultados; Print (MsgEstructura datos)]))
  | Resultados negocios =>
      (inr tt,
       agregar st
         (leads_extraidos float_de_str ahora (ciudad st) tipo
            (List.length (leads st)) negocios)
         (inicio ++
          eventos_extraccion float_de_str ahora (ciudad st) tipo
            (List.length (leads st)) negocios))
  end.
Proof.
  cbv zeta.
  unfold buscar_negocios, bind at 1. unfold get_self at 1.
  unfold bind at 1. rewrite print_eq.
  fold (params_de st tipo max).
  set (params := params_de st tipo max).
  set (inicio := [Print (MsgBuscando tipo (ciudad st)); HttpGet params]).
  unfold try_except, bind at 1. unfold requests_get.
  assert (Hn : n_solicitudes
                 (traza (agregar st [] [Print (MsgBuscando tipo (ciudad st))]))
               = n_solicitudes (traza st)).
  { unfold agregar; simpl. rewrite n_solicitudes_app. simpl. lia. }
  rewrite Hn.
  match goal with
  | |- context [(_, ?s)] =>
      match s with
      | {| api_key := _ |} =>
          replace s with (agregar st [] inicio)
            by (unfold agregar; simpl; now rewrite <- app_assoc)
      end
  end.
  assert (Hl : leads (agregar st [] inicio) = leads st)
    by (unfold agregar; simpl; apply app_nil_r).
  assert (He : forall e,
             (inr tt, agregar (agregar st [] inicio) [] [Print (mensaje_error e)])
             = (inr tt : resultado unit,
                agregar st [] (inicio ++ [Print (mensaje_error e)])))
    by (intros e; now rewrite agregar_agregar).
  unfold desenlace_de.
  destruct (red (n_solicitudes (traza st)) params) as [e | resp];
    [rewrite manejador_eq; apply He|].
  unfold bind, lift, ret, raise.
  destruct (raise_for_status resp) as [e |];
    [rewrite manejador_eq; apply He|].
  destruct (json resp) as [e | datos];
    [rewrite manejador_eq; apply He|].
  destruct (py_in "local_results" datos) as [e | [|]];
    [rewrite manejador_eq; apply He | |].
  - destruct (py_getitem datos "local_results") as [e | resultados];
      [rewrite manejador_eq; apply He|].
    rewrite procesar_resultados_eq.
    destruct (iterar resultados) as [e | negocios];
      [rewrite manejador_eq; apply He|].
    rewrite agregar_agregar, Hl. reflexivity.
  - rewrite !print_eq, !agregar_agregar. reflexivity.
Qed.

(** Whatever the outcome, a query returns normally, only appends leads,
    writes no file and sends exactly one request. *)
Lemma buscar_negocios_marco (tipo : string) (max : Z) (st : GeneradorLeads) :
  exists nuevos evs,
    buscar_negocios float_de_str red ahora tipo max st
    = (inr tt, agregar st nuevos evs)
    /\ csvs evs = []
    /\ solicitudes evs = [params_de st tipo max].
Proof.
  rewrite buscar_negocios_eq. cbv zeta.
  destruct (desenlace_de _) as [e | datos | negocios];
    do 2 eexists; (split; [reflexivity|]).
  - split; reflexivity.
  - split; reflexivity.
  - rewrite csvs_app, solicitudes_app.
    destruct (eventos_extraccion_solo_print (ciudad st) tipo negocios
                (List.length (leads st))) as [-> ->].
    split; reflexivity.
Qed.

(** The loop of [ejecutar_busqueda_completa] over any list of
    categories. *)
Lemma bucle_marco (max : Z) (tipos : list string) :
  forall st,
  exists nuevos evs,
    for_each tipos
      (fun tipo =>
         bind (buscar_negocios float_de_str red ahora tipo max)
              (fun _ => emit (Sleep 2))) st
    = (inr tt, agregar st nuevos evs)
    /\ csvs evs = []
    /\ solicitudes evs = map (fun tipo => params_de st tipo max) tipos.
Proof.
  induction tipos as [| tipo resto IH]; intros st.
  - exists [], []. simpl. now rewrite agregar_nil.
  - destruct (buscar_negocios_marco tipo max st) as (n1 & e1 & H1 & Hc1 & Hs1).
    destruct (IH (agregar (agregar st n1 e1) [] [Sleep 2]))
      as (n2 & e2 & H2 & Hc2 & Hs2).
    exists (n1 ++ n2)%list, (e1 ++ Sleep 2 :: e2)%list.
    split; [|split].
    + cbn [for_each]. unfold bind at 1. unfold bind at 1.
      rewrite H1, emit_eq, H2, !agregar_agregar. reflexivity.
    + rewrite csvs_app, Hc1. simpl. exact Hc2.
    + rewrite solicitudes_app, Hs1. simpl. rewrite Hs2. reflexivity.
Qed.

(** The whole run: the loop, then the writes or the report of line 188.
    [guardar_csv] and the second write see the leads collected by the
    loop. *)
Lemma ejecutar_busqueda_completa_eq (st : GeneradorLeads) :
  exists nuevos evs,
    ejecutar_busqueda_completa float_de_str red ahora st
    = (inr tt, agregar st nuevos (evs ++ cierre (leads st ++ nuevos)))
    /\ csvs evs = []
    /\ solicitudes evs = map (fun tipo => params_de st tipo 20) tipos_negocio.
Proof.
  destruct (bucle_marco 20 tipos_negocio st) as (nuevos & evs & H & Hc & Hs).
  exists nuevos, evs. split; [|split; assumption].
  unfold ejecutar_busqueda_completa. unfold bind at 1.
  change (fun tipo : string =>
            (buscar_negocios float_de_str red ahora tipo 20 ;; emit (Sleep 2))%M)
    with (fun tipo : string =>
            bind (buscar_negocios float_de_str red ahora tipo 20)
                 (fun _ => emit (Sleep 2))).
  rewrite H. unfold bind at 1. unfold get_self at 1.
  set (st1 := agregar st nuevos evs).
  assert (HL : leads st1 = (leads st ++ nuevos)%list) by reflexivity.
  rewrite <- HL. unfold cierre.
  destruct (leads st1) as [| l ls] eqn:Hl.
  - rewrite print_eq. unfold st1. now rewrite agregar_agregar, app_nil_r.
  - unfold bind at 1. rewrite guardar_csv_eq, Hl.
    unfold bind at 1. unfold get_self at 1.
    set (evs1 := ToCsv _ _ :: estadisticas _ _ _).
    assert (Hl1 : leads (agregar st1 [] evs1) = l :: ls).
    { unfold agregar; simpl. now rewrite app_nil_r. }
    rewrite Hl1. unfold DataFrame.
    destruct (filtrar_alta (l :: ls)) as [| a ra] eqn:Ha.
    + unfold ret, st1. rewrite !agregar_agregar, !app_nil_r. reflexivity.
    + unfold bind. rewrite emit_eq, print_eq. unfold st1.
      rewrite !agregar_agregar, !app_nil_r. reflexivity.
Qed.

End Consulta.

(** ** Failed queries, empty runs and the two files *)

Lemma leads_agregar (st : GeneradorLeads) nuevos evs :
  leads (agregar st nuevos evs) = (leads st ++ nuevos)%list.
Proof. reflexivity. Qed.

Lemma traza_agregar (st : GeneradorLeads) nuevos evs :
  traza (agregar st nuevos evs) = (traza st ++ evs)%list.
Proof. reflexivity. Qed.

(** The ways a query fails before any record is visited. *)
Lemma desenlace_falla (r : resultado respuesta) (e : excepcion) :
  r = inl e
  \/ (exists resp, r = inr resp /\ raise_for_status resp = Some e)
  \/ (exists resp, r = inr resp /\ raise_for_status resp = None
                   /\ json resp = inl e) ->
  desenlace_de r = Falla e.
Proof.
  intros [-> | [(resp & -> & H) | (resp & -> & H1 & H2)]]; simpl.
  - reflexivity.
  - now rewrite H.
  - now rewrite H1, H2.
Qed.

(** C6: when a category query fails before its records are visited (the
    request raises, [raise_for_status] raises, the body does not decode, or
    any other exception), [buscar_negocios] sends its one request, prints
    the error and returns normally with [self.leads] unchanged; the loop
    goes on with the next category, and a run sends exactly one request
    per category. *)
Theorem buscar_negocios_fallo
  (float_de_str : string -> option Float64.t)
  (red : nat -> solicitud -> resultado respuesta) (ahora : nat -> string)
  (tipo : string) (max : Z) (st : GeneradorLeads) (e : excepcion) :
  desenlace_de (red (n_solicitudes (traza st)) (params_de st tipo max))
  = Falla e ->
  let st' :=
    agregar st []
      [Print (MsgBuscando tipo (ciudad st));
       HttpGet (params_de st tipo max);
       Print (mensaje_error e)] in
  let cuerpo tipo :=
    bind (buscar_negocios float_de_str red ahora tipo max)
         (fun _ => emit (Sleep 2)) in
  buscar_negocios float_de_str red ahora tipo max st = (inr tt, st')
  /\ leads st' = leads st
  /\ (forall resto,
        for_each (tipo :: resto) cuerpo st
        = for_each resto cuerpo (agregar st' [] [Sleep 2]))
  /\ (forall st0, exists nuevos evs,
        ejecutar_busqueda_completa float_de_str red ahora st0
        = (inr tt, agregar st0 nuevos evs)
        /\ solicitudes evs
           = map (fun tipo => params_de st0 tipo 20) tipos_negocio).
Proof.
  intros He st' cuerpo.
  assert (Hb : buscar_negocios float_de_str red ahora tipo max st
               = (inr tt, st')).
  { rewrite buscar_negocios_eq. cbv zeta. now rewrite He. }
  split; [exact Hb | split; [|split]].
  - unfold st'. rewrite leads_agregar. apply app_nil_r.
  - intros resto. cbn [for_each]. unfold bind at 1. unfold cuerpo at 1.
    unfold bind at 1. now rewrite Hb, emit_eq.
  - intros st0.
    destruct (ejecutar_busqueda_completa_eq float_de_str red ahora st0)
      as (nuevos & evs & H & Hc & Hs).
    exists nuevos, (evs ++ cierre (leads st0 ++ nuevos))%list.
    split; [exact H|].
    rewrite solicitudes_app, Hs.
    assert (Hcierre : solicitudes (cierre (leads st0 ++ nuevos)) = []).
    { unfold cierre. destruct (leads st0 ++ nuevos)%list; [reflexivity|].
      rewrite solicitudes_app. destruct (filtrar_alta _); reflexivity. }
    rewrite Hcierre. apply app_nil_r.
Qed.

(** C5: a run that collects no lead writes no CSV file and ends by
    printing that no leads were found; [guardar_csv] itself writes nothing
    when there are no leads. *)
Theorem sin_leads_no_escribe
  (float_de_str : string -> option Float64.t)
  (red : nat -> solicitud -> resultado respuesta) (ahora : nat -> string)
  (st : GeneradorLeads) :
  leads (snd (ejecutar_busqueda_completa float_de_str red ahora st)) = [] ->
  (exists evs,
     ejecutar_busqueda_completa float_de_str red ahora st
     = (inr tt, agregar st [] (evs ++ [Print MsgNoSeEncontraronLeads]))
     /\ csvs (evs ++ [Print MsgNoSeEncontraronLeads]) = [])
  /\ (forall filename st0,
        leads st0 = [] ->
        guardar_csv filename st0 = (inr tt, agregar st0 [] [Print MsgNoHayLeads])).
Proof.
  intros Hvacio. split.
  - destruct (ejecutar_busqueda_completa_eq float_de_str red ahora st)
      as (nuevos & evs & H & Hc & _).
    rewrite H in Hvacio. cbn [snd] in Hvacio. rewrite leads_agregar in Hvacio.
    rewrite Hvacio in H.
    apply app_eq_nil in Hvacio. destruct Hvacio as [_ ->].
    exists evs. split; [exact H|].
    rewrite csvs_app, Hc. reflexivity.
  - intros filename st0 H0. rewrite guardar_csv_eq, H0. reflexivity.
Qed.

(** C4: a run that collects at least one lead writes the full set, sorted,
    to "clientes_potenciales.csv", and then exactly the "ALTA PRIORIDAD"
    leads to "clientes_alta_prioridad.csv"; the second file is not written
    when there is no such lead.  No other file is written. *)
Theorem con_leads_escribe_dos
  (float_de_str : string -> option Float64.t)
  (red : nat -> solicitud -> resultado respuesta) (ahora : nat -> string)
  (st : GeneradorLeads) (l : Lead) (ls : list Lead) :
  leads (snd (ejecutar_busqueda_completa float_de_str red ahora st)) = l :: ls ->
  let L := l :: ls in
  exists evs,
    fst (ejecutar_busqueda_completa float_de_str red ahora st) = inr tt
    /\ traza (snd (ejecutar_busqueda_completa float_de_str red ahora st))
       = (traza st ++ evs)%list
    /\ csvs evs
       = ("clientes_potenciales.csv", filas_csv L)
         :: match filtrar_alta L with
            | [] => []
            | _ :: _ => [("clientes_alta_prioridad.csv", filtrar_alta L)]
            end
    /\ Permutation (filas_csv L) L
    /\ (forall x,
          In x (filtrar_alta L) <-> In x L /\ Prioridad x = ALTA_PRIORIDAD).
Proof.
  intros HL L.
  destruct (ejecutar_busqueda_completa_eq float_de_str red ahora st)
    as (nuevos & evs & H & Hc & _).
  rewrite H in HL |- *. cbn [fst snd] in *. rewrite leads_agregar in HL.
  rewrite HL. fold L.
  exists (evs ++ cierre L)%list.
  split; [reflexivity | split; [reflexivity | split; [|split]]].
  - rewrite csvs_app, Hc. unfold cierre, L.
    rewrite csvs_app. cbn [app csvs estadisticas].
    destruct (filtrar_alta (l :: ls)); reflexivity.
  - rewrite filas_csv_eq. apply ordenar_perm.
  - intros x. unfold filtrar_alta. rewrite filter_In.
    unfold es_alta. now rewrite String.eqb_eq.
Qed.

(** C9: every method leaves the leads already in [self.leads] in place
    and at most appends to them; [guardar_csv] leaves the list as it
    is. *)
Theorem leads_solo_crece
  (float_de_str : string -> option Float64.t)
  (red : nat -> solicitud -> resultado respuesta) (ahora : nat -> string)
  (st : GeneradorLeads) :
  (forall negocio tipo, exists nuevos,
      leads (snd (procesar_negocio float_de_str ahora negocio tipo st))
      = (leads st ++ nuevos)%list)
  /\ (forall resultados tipo, exists nuevos,
        leads (snd (_procesar_resultados float_de_str ahora resultados tipo st))
        = (leads st ++ nuevos)%list)
  /\ (forall tipo max, exists nuevos,
        leads (snd (buscar_negocios float_de_str red ahora tipo max st))
        = (leads st ++ nuevos)%list)
  /\ (forall filename, leads (snd (guardar_csv filename st)) = leads st)
  /\ (exists nuevos,
        leads (snd (ejecutar_busqueda_completa float_de_str red ahora st))
        = (leads st ++ nuevos)%list).
Proof.
  split; [|split; [|split; [|split]]].
  - intros negocio tipo. rewrite procesar_negocio_eq.
    destruct (extraer_lead _ _ _ _ _); eexists; reflexivity.
  - intros resultados tipo. rewrite procesar_resultados_eq.
    destruct (iterar resultados).
    + exists []. symmetry. apply app_nil_r.
    + eexists. reflexivity.
  - intros tipo max.
    destruct (buscar_negocios_marco float_de_str red ahora tipo max st)
      as (nuevos & evs & H & _).
    exists nuevos. now rewrite H.
  - intros filename. rewrite guardar_csv_eq.
    destruct (leads st) eqn:Hl; cbn [snd]; rewrite leads_agregar, Hl;
      apply app_nil_r.
  - destruct (ejecutar_busqueda_completa_eq float_de_str red ahora st)
      as (nuevos & evs & H & _).
    exists nuevos. now rewrite H.
Qed.

(** ** The dashboard metrics *)

(** *** A quotient of at most one does not overflow *)

Lemma digits2_pos_size (p : positive) : digits2_pos p = Pos.size p.
Proof. induction p; simpl; congruence. Qed.

Lemma Zdigits2_le (m k : Z) : 0 <= k -> 0 <= m < 2 ^ k -> Zdigits2 m <= k.
Proof.
  intros Hk [Hm Hlt]. destruct m as [| p | p]; simpl; [assumption | | lia].
  rewrite digits2_pos_size.
  assert (H := Pos.size_le p).
  assert (H2 : 2 ^ Zpos (Pos.size p) <= 2 * Zpos p).
  { rewrite <- Pos2Z.inj_pow. change (2 * Zpos p) with (Zpos p~0). lia. }
  destruct (Z_lt_le_dec k (Zpos (Pos.size p))) as [Hlt' |]; [|assumption].
  assert (2 ^ (k + 1) <= 2 ^ Zpos (Pos.size p))
    by (apply Z.pow_le_mono_r; lia).
  rewrite Z.pow_add_r in H0 by lia. lia.
Qed.

Lemma iter_pos_inv {A} (P : A -> Prop) (f : A -> A) :
  (forall x, P x -> P (f x)) -> forall p x, P x -> P (iter_pos f p x).
Proof.
  intros Hf. induction p; intros x Hx; simpl; auto.
Qed.

Lemma shr_1_cota (M : Z) (mrs : shr_record) :
  0 <= shr_m mrs <= M -> 0 <= shr_m (shr_1 mrs) <= M.
Proof.
  destruct mrs as [m r s]. simpl.
  destruct m as [| [p | p |] | [p | p |]]; simpl; lia.
Qed.

Lemma shr_cota (mrs mrs' : shr_record) (e n e' : Z) :
  shr mrs e n = (mrs', e') ->
  0 <= shr_m mrs ->
  0 <= shr_m mrs' <= shr_m mrs /\ (e' = e \/ (0 < n /\ e' = e + n)).
Proof.
  unfold shr. intros H Hm.
  destruct n as [| p | p]; injection H as <- <-; try (split; [lia | now left]).
  split; [|right; lia].
  apply (iter_pos_inv (fun x => 0 <= shr_m x <= shr_m mrs)); [|lia].
  intros x. apply shr_1_cota.
Qed.

Lemma round_nearest_even_cota (m : Z) (l : location) :
  m <= round_nearest_even m l <= m + 1.
Proof.
  destruct l as [| []]; simpl; try lia. destruct (Z.even m); lia.
Qed.

Lemma shr_m_of_loc m l : shr_m (shr_record_of_loc m l) = m.
Proof. destruct l as [| []]; reflexivity. Qed.

Lemma binary_round_aux_no_inf (sx : bool) (mx ex : Z) (lx : location) :
  0 <= mx <= 2 ^ (- ex) -> -1074 <= ex <= 0 ->
  forall s, binary_round_aux 53 1024 sx mx ex lx <> S754_infinity s.
Proof.
  intros Hm He s. unfold binary_round_aux.
  destruct (shr_fexp 53 1024 mx ex lx) as [mrs1 e1] eqn:H1.
  set (m1 := round_nearest_even (shr_m mrs1) (loc_of_shr_record mrs1)).
  destruct (shr_fexp 53 1024 m1 e1 loc_Exact) as [mrs2 e2] eqn:H2.
  unfold shr_fexp in H1, H2.
  apply shr_cota in H1; [|rewrite shr_m_of_loc; lia].
  rewrite shr_m_of_loc in H1. destruct H1 as [Hm1 He1].
  assert (Hr := round_nearest_even_cota (shr_m mrs1) (loc_of_shr_record mrs1)).
  fold m1 in Hr.
  apply shr_cota in H2; [|rewrite shr_m_of_loc; lia].
  rewrite shr_m_of_loc in H2. destruct H2 as [Hm2 He2].
  assert (Hp : 0 < 2 ^ (- ex)) by (apply Z.pow_pos_nonneg; lia).
  assert (Hd : Zdigits2 mx <= - ex + 1).
  { apply Zdigits2_le; [lia|]. rewrite Z.pow_add_r by lia. lia. }
  assert (Hd1 : Zdigits2 m1 <= - ex + 2).
  { apply Zdigits2_le; [lia|]. rewrite Z.pow_add_r by lia. lia. }
  unfold fexp, emin in He1, He2.
  assert (He2' : e2 <= 971) by lia.
  destruct (shr_m mrs2); try discriminate.
  apply Z.leb_le in He2'. change (1024 - 53) with 971. rewrite He2'. discriminate.
Qed.

Lemma SFdiv_core_cota (p q : positive) (mz ez : Z) (lz : location) :
  (p <= q)%positive ->
  SFdiv_core_binary 53 1024 (Zpos p) 0 (Zpos q) 0 = (mz, ez, lz) ->
  0 <= mz <= 2 ^ (- ez) /\ -1074 <= ez <= 0.
Proof.
  intros Hpq. unfold SFdiv_core_binary.
  set (e' := Z.min _ _).
  assert (He : -1074 <= e' <= 0) by (unfold e', fexp, emin; lia).
  set (m' := match 0 - 0 - e' with
             | Z0 => Zpos p
             | Zpos _ => Z.shiftl (Zpos p) (0 - 0 - e')
             | Zneg _ => 0
             end).
  assert (Hm' : m' = Zpos p * 2 ^ (- e')).
  { unfold m'. replace (0 - 0 - e') with (- e') by lia.
    destruct (- e') eqn:Hs; [simpl; lia | | lia].
    now rewrite Z.shiftl_mul_pow2. }
  destruct (Z.div_eucl m' (Zpos q)) as [c r] eqn:Hdiv.
  intros [= <- <- _].
  assert (Hc : c = m' / Zpos q) by (unfold Z.div; now rewrite Hdiv).
  assert (Hp : 0 < 2 ^ (- e')) by (apply Z.pow_pos_nonneg; lia).
  split; [|exact He]. subst c. split.
  - apply Z.div_pos; lia.
  - apply Z.div_le_upper_bound; [lia|]. rewrite Hm'. nia.
Qed.

Lemma truediv_fraccion (a b : Z) :
  0 <= a <= b -> 0 < b -> exists x, truediv a b = inr x.
Proof.
  intros Ha Hb. unfold truediv.
  destruct b as [| q | q]; try lia. cbn [Z.eqb].
  destruct a as [| p | p]; try lia.
  - eexists. reflexivity.
  - unfold Float64.div, SFdiv.
    destruct (SFdiv_core_binary Float64.prec Float64.emax (Zpos p) 0 (Zpos q) 0)
      as [[mz ez] lz] eqn:Hc.
    apply SFdiv_core_cota in Hc; [|lia]. destruct Hc as [Hm He].
    assert (Hn := binary_round_aux_no_inf (xorb false false) mz ez lz Hm He).
    change Float64.prec with 53. change Float64.emax with 1024.
    destruct (binary_round_aux 53 1024 (xorb false false) mz ez lz) as [| s | |];
      try (eexists; reflexivity).
    now destruct (Hn s).
Qed.

Lemma len_filter_le {A} (f : A -> bool) (l : list A) :
  0 <= len (filter f l) <= len l.
Proof.
  unfold len. induction l as [| x l IH]; simpl; [lia|].
  destruct (f x); simpl List.length; lia.
Qed.

(** *** The rate is the quotient *)

Lemma Zdigits2_lt (m : Z) : 0 <= m -> m < 2 ^ Zdigits2 m.
Proof.
  intros Hm. destruct m as [| p | p]; simpl; [lia | | lia].
  rewrite digits2_pos_size.
  assert (H := Pos.size_gt p).
  assert (H0 : Zpos p < Zpos (2 ^ Pos.size p)) by lia.
  now rewrite Pos2Z.inj_pow in H0.
Qed.

Lemma shr_1_mitad (mrs : shr_record) :
  0 <= shr_m mrs -> shr_m (shr_1 mrs) = shr_m mrs / 2.
Proof.
  destruct mrs as [m r s]. simpl.
  destruct m as [| [p | p |] | p]; simpl; intros H; try lia;
    try reflexivity.
  - apply Z.div_unique with (r := 1); lia.
  - apply Z.div_unique with (r := 0); lia.
Qed.

Lemma iter_shr_1 (p : positive) :
  forall mrs,
    0 <= shr_m mrs ->
    shr_m (iter_pos shr_1 p mrs) = shr_m mrs / 2 ^ Zpos p.
Proof.
  assert (Hpos : forall q, 0 < 2 ^ Zpos q)
    by (intros; apply Z.pow_pos_nonneg; lia).
  assert (Hnn : forall a q, 0 <= a -> 0 <= a / 2 ^ Zpos q)
    by (intros; apply Z.div_pos; auto).
  induction p as [p IH | p IH |]; intros mrs Hm; cbn [iter_pos].
  - assert (H1 : 0 <= shr_m (shr_1 mrs))
      by (rewrite shr_1_mitad by assumption; apply Z.div_pos; lia).
    rewrite IH by (rewrite IH; auto).
    rewrite IH by assumption.
    rewrite shr_1_mitad by assumption.
    rewrite !Z.div_div by (try apply Hpos; lia).
    f_equal.
    replace (Zpos p~1) with (1 + Zpos p + Zpos p) by lia.
    rewrite !Z.pow_add_r by lia. lia.
  - rewrite IH by (rewrite IH; auto).
    rewrite IH by assumption.
    rewrite !Z.div_div by (try apply Hpos; lia).
    f_equal.
    replace (Zpos p~0) with (Zpos p + Zpos p) by lia.
    rewrite !Z.pow_add_r by lia. lia.
  - now apply shr_1_mitad.
Qed.

Lemma shr_spec (mrs mrs' : shr_record) (e n e' : Z) :
  shr mrs e n = (mrs', e') ->
  0 <= shr_m mrs ->
  e' = e + Z.max n 0 /\ shr_m mrs' = shr_m mrs / 2 ^ Z.max n 0.
Proof.
  unfold shr. intros H Hm.
  destruct n as [| p | p]; injection H as <- <-.
  - simpl. rewrite Z.div_1_r. lia.
  - rewrite iter_shr_1 by assumption. replace (Z.max (Zpos p) 0) with (Zpos p) by lia. lia.
  - replace (Z.max (Zneg p) 0) with 0 by lia. simpl. rewrite Z.div_1_r. lia.
Qed.

Lemma binary_round_aux_error (mx ex k : Z) (lx : location) :
  0 <= mx -> -1074 <= k -> ex <= k -> ex <= 971 -> mx < 2 ^ (k - ex) ->
  k <= 1023 ->
  exists m2 e2,
    binary_round_aux 53 1024 false mx ex lx = flotante m2 e2
    /\ 0 <= m2
    /\ ex <= e2 <= Z.max ex (Z.max (k + 1 - 53) (-1074))
    /\ Z.abs (m2 * 2 ^ (e2 - ex) - mx) <= 2 * 2 ^ (e2 - ex).
Proof.
  intros Hm Hk Hex Hex' Hlt Hk'. unfold binary_round_aux.
  destruct (shr_fexp 53 1024 mx ex lx) as [mrs1 e1] eqn:H1.
  set (m1 := round_nearest_even (shr_m mrs1) (loc_of_shr_record mrs1)).
  destruct (shr_fexp 53 1024 m1 e1 loc_Exact) as [mrs2 e2] eqn:H2.
  unfold shr_fexp in H1, H2.
  apply shr_spec in H1; [|rewrite shr_m_of_loc; lia].
  rewrite shr_m_of_loc in H1. destruct H1 as [He1 HM1].
  assert (Hr := round_nearest_even_cota (shr_m mrs1) (loc_of_shr_record mrs1)).
  fold m1 in Hr.
  set (k1 := Z.max (fexp 53 1024 (Zdigits2 mx + ex) - ex) 0) in *.
  set (A := 2 ^ k1) in *.
  assert (HA : 0 < A) by (apply Z.pow_pos_nonneg; lia).
  assert (HM1a : A * shr_m mrs1 <= mx)
    by (rewrite HM1; apply Z.mul_div_le; lia).
  assert (HM1b : mx < A * (shr_m mrs1 + 1)).
  { rewrite HM1. rewrite Z.mul_add_distr_l, Z.mul_1_r.
    assert (Hmod := Z.mod_pos_bound mx A HA).
    rewrite (Z.div_mod mx A) at 1 by lia. lia. }
  assert (HM1n : 0 <= shr_m mrs1) by (rewrite HM1; apply Z.div_pos; lia).
  apply shr_spec in H2; [|rewrite shr_m_of_loc; lia].
  rewrite shr_m_of_loc in H2. destruct H2 as [He2 HM2].
  set (k2 := Z.max (fexp 53 1024 (Zdigits2 m1 + e1) - e1) 0) in *.
  set (B := 2 ^ k2) in *.
  assert (HB : 0 < B) by (apply Z.pow_pos_nonneg; lia).
  assert (HM2a : B * shr_m mrs2 <= m1)
    by (rewrite HM2; apply Z.mul_div_le; lia).
  assert (HM2b : m1 < B * (shr_m mrs2 + 1)).
  { rewrite HM2. rewrite Z.mul_add_distr_l, Z.mul_1_r.
    assert (Hmod := Z.mod_pos_bound m1 B HB).
    rewrite (Z.div_mod m1 B) at 1 by lia. lia. }
  assert (HM2n : 0 <= shr_m mrs2) by (rewrite HM2; apply Z.div_pos; lia).
  (* exponents *)
  assert (Hd : Zdigits2 mx <= k - ex) by (apply Zdigits2_le; lia).
  assert (He1b : ex <= e1 <= Z.max ex (Z.max (k - 53) (-1074)))
    by (unfold k1, fexp, emin in *; lia).
  assert (Hke1 : 0 <= k - e1) by lia.
  assert (Hpow : 2 ^ (k - ex) = 2 ^ (k - e1) * A).
  { unfold A. rewrite <- Z.pow_add_r by lia. f_equal. lia. }
  assert (HP : 0 < 2 ^ (k - e1)) by (apply Z.pow_pos_nonneg; lia).
  assert (HM1c : shr_m mrs1 < 2 ^ (k - e1)).
  { apply (Z.mul_lt_mono_pos_l A); [exact HA|]. lia. }
  assert (Hd1 : Zdigits2 m1 <= k - e1 + 1).
  { apply Zdigits2_le; [lia|]. rewrite Z.pow_add_r by lia. lia. }
  assert (He2b : e1 <= e2 <= Z.max e1 (Z.max (k + 1 - 53) (-1074)))
    by (unfold k2, fexp, emin in *; lia).
  exists (shr_m mrs2), e2.
  assert (HAB : 2 ^ (e2 - ex) = A * B).
  { unfold A, B. rewrite <- Z.pow_add_r by lia. f_equal. lia. }
  split; [|split; [exact HM2n | split; [lia|]]].
  - unfold flotante. destruct (shr_m mrs2) as [| p | p] eqn:Hs;
      [reflexivity | | lia].
    assert (Hle : (e2 <=? 1024 - 53) = true) by (apply Z.leb_le; lia).
    rewrite Hle. reflexivity.
  - rewrite HAB.
    assert (Ha : A * (B * shr_m mrs2) <= A * m1)
      by (apply Z.mul_le_mono_nonneg_l; lia).
    assert (Hb : A * m1 < A * (B * (shr_m mrs2 + 1)))
      by (apply Z.mul_lt_mono_pos_l; lia).
    assert (Hc : A * shr_m mrs1 <= A * m1 <= A * (shr_m mrs1 + 1))
      by (split; apply Z.mul_le_mono_nonneg_l; lia).
    assert (Hd' : A * 1 <= A * B)
      by (apply Z.mul_le_mono_nonneg_l; lia).
    apply Z.abs_le. lia.
Qed.

Lemma Zdigits2_mono (p q : Z) : 0 <= p <= q -> Zdigits2 p <= Zdigits2 q.
Proof.
  intros H. assert (Hq := Zdigits2_lt q).
  destruct q as [| q' | q'].
  - assert (p = 0) by lia. subst. reflexivity.
  - apply Zdigits2_le; [simpl; lia|]. lia.
  - lia.
Qed.

(** The integer quotient of the core of the division, for a dividend not
    above the divisor. *)
Lemma SFdiv_core_spec (p q : positive) (mz ez : Z) (lz : location) :
  (p <= q)%positive ->
  SFdiv_core_binary 53 1024 (Zpos p) 0 (Zpos q) 0 = (mz, ez, lz) ->
  -1074 <= ez <= -53
  /\ 0 <= mz
  /\ mz * Zpos q <= Zpos p * 2 ^ (- ez) < (mz + 1) * Zpos q.
Proof.
  intros Hpq. unfold SFdiv_core_binary.
  assert (Hd : Zdigits2 (Zpos p) <= Zdigits2 (Zpos q))
    by (apply Zdigits2_mono; lia).
  set (e' := Z.min _ _).
  assert (He : -1074 <= e' <= -53) by (unfold e', fexp, emin; lia).
  set (m' := match 0 - 0 - e' with
             | Z0 => Zpos p
             | Zpos _ => Z.shiftl (Zpos p) (0 - 0 - e')
             | Zneg _ => 0
             end).
  assert (Hm' : m' = Zpos p * 2 ^ (- e')).
  { unfold m'. replace (0 - 0 - e') with (- e') by lia.
    destruct (- e') eqn:Hs; [lia | | lia].
    now rewrite Z.shiftl_mul_pow2. }
  destruct (Z.div_eucl m' (Zpos q)) as [c r] eqn:Hdiv.
  intros [= <- <- _].
  assert (Hc : c = m' / Zpos q) by (unfold Z.div; now rewrite Hdiv).
  assert (Hp : 0 < 2 ^ (- e')) by (apply Z.pow_pos_nonneg; lia).
  split; [exact He|]. rewrite <- Hm'. subst c.
  assert (Hmod := Z.mod_pos_bound m' (Zpos q) ltac:(lia)).
  assert (Hdm := Z.div_mod m' (Zpos q) ltac:(lia)).
  split; [apply Z.div_pos; lia|]. lia.
Qed.

(** The quotient of two lengths as a float: within 3 * 2^-51 of the
    exact quotient. *)
Lemma truediv_error (a b : Z) :
  0 <= a <= b -> 0 < b ->
  exists m e,
    truediv a b = inr (flotante m e)
    /\ 0 <= m /\ -1074 <= e <= -51
    /\ Z.abs (m * 2 ^ (e + 1200) * b - a * 2 ^ 1200) <= 3 * 2 ^ 1149 * b.
Proof.
  intros Ha Hb. unfold truediv.
  destruct b as [| q | q]; try lia. cbn [Z.eqb].
  destruct a as [| p | p]; try lia.
  - exists 0, (-51). split; [reflexivity|]. split; [lia|]. split; [lia|].
    simpl Z.abs. lia.
  - unfold Float64.div, SFdiv.
    change Float64.prec with 53. change Float64.emax with 1024.
    destruct (SFdiv_core_binary 53 1024 (Zpos p) 0 (Zpos q) 0)
      as [[mz ez] lz] eqn:Hc.
    apply SFdiv_core_spec in Hc; [|lia].
    destruct Hc as (He & Hm & Hq1 & Hq2).
    assert (HS : 0 < 2 ^ (- ez)) by (apply Z.pow_pos_nonneg; lia).
    destruct (binary_round_aux_error mz ez 1 lz) as (m2 & e2 & Hr & Hm2 & He2 & Herr);
      try lia.
    { replace (1 - ez) with (1 + - ez) by lia. rewrite Z.pow_add_r by lia.
      assert (mz * Zpos q <= 1 * 2 ^ (- ez) * Zpos q) by nia.
      assert (mz <= 2 ^ (- ez)) by nia. lia. }
    cbn [xorb]. rewrite Hr.
    exists m2, e2. split; [|split; [exact Hm2 | split; [lia|]]].
    + unfold flotante. destruct (m2 =? 0); reflexivity.
    + set (T := 2 ^ (e2 - ez)) in *.
      assert (HT : 0 < T) by (apply Z.pow_pos_nonneg; lia).
      set (W := 2 ^ (ez + 1200)).
      assert (HW : 0 < W) by (apply Z.pow_pos_nonneg; lia).
      assert (H1 : 2 ^ (e2 + 1200) = T * W)
        by (unfold T, W; rewrite <- Z.pow_add_r by lia; f_equal; lia).
      assert (H2 : 2 ^ 1200 = 2 ^ (- ez) * W)
        by (unfold W; rewrite <- Z.pow_add_r by lia; f_equal; lia).
      assert (H3 : T * W <= 2 ^ 1149).
      { rewrite <- H1. apply Z.pow_le_mono_r; lia. }
      rewrite H1, H2.
      set (S := 2 ^ (- ez)) in *.
      apply Z.abs_le in Herr.
      assert (Hcore : Z.abs (m2 * T * Zpos q - Zpos p * S) <= 3 * T * Zpos q).
      { apply Z.abs_le. split; nia. }
      replace (m2 * (T * W) * Zpos q - Zpos p * (S * W))
        with ((m2 * T * Zpos q - Zpos p * S) * W) by ring.
      rewrite Z.abs_mul, (Z.abs_eq W) by lia.
      apply Z.le_trans with (3 * T * Zpos q * W).
      * apply Z.mul_le_mono_nonneg_r; lia.
      * replace (3 * T * Zpos q * W) with (3 * (T * W) * Zpos q) by ring.
        apply Z.mul_le_mono_nonneg_r; lia.
Qed.

(** The product of such a quotient by 100: within 2^-44 of the exact
    product. *)
Lemma mul_hundred_error (m e : Z) :
  0 <= m -> -1074 <= e <= -51 ->
  100 * (m * 2 ^ (e + 1200)) <= 101 * 2 ^ 1200 ->
  exists m3 e3,
    Float64.mul (flotante m e) Float64.hundred = flotante m3 e3
    /\ 0 <= m3 /\ -1120 <= e3 <= -45
    /\ Z.abs (m3 * 2 ^ (e3 + 1200) - 100 * (m * 2 ^ (e + 1200)))
       <= 2 ^ 1156.
Proof.
  intros Hm He Hv. unfold flotante at 1.
  destruct (Z.eqb_spec m 0) as [-> | Hne].
  - exists 0, (-45). split; [reflexivity|]. cbn. lia.
  - unfold Float64.mul, Float64.hundred, SFmul.
    change Float64.prec with 53. change Float64.emax with 1024.
    cbn [xorb].
    set (mx := Zpos (Z.to_pos m * 7036874417766400)).
    assert (Hmx : mx = m * (100 * 2 ^ 46)).
    { unfold mx. rewrite Pos2Z.inj_mul, Z2Pos.id by lia. reflexivity. }
    set (W := 2 ^ (e + 1200)) in *.
    assert (HW : 0 < W) by (apply Z.pow_pos_nonneg; lia).
    assert (H7 : 2 ^ 1200 * 2 ^ 7 = 2 ^ (7 - e) * W).
    { unfold W. rewrite <- !Z.pow_add_r by lia. f_equal. lia. }
    assert (Hlt : 100 * m < 2 ^ (7 - e)).
    { apply (Z.mul_lt_mono_pos_r W); [exact HW|].
      rewrite <- H7. change (2 ^ 7) with 128. lia. }
    destruct (binary_round_aux_error mx (e + -46) 7 loc_Exact)
      as (m3 & e3 & Hr & Hm3 & He3 & Herr); try lia.
    { rewrite Hmx.
      replace (7 - (e + -46)) with (46 + (7 - e)) by lia.
      rewrite Z.pow_add_r by lia. nia. }
    rewrite Hr. exists m3, e3.
    split; [reflexivity | split; [exact Hm3 | split; [lia|]]].
    set (T := 2 ^ (e3 - (e + -46))) in *.
    assert (HT : 0 < T) by (apply Z.pow_pos_nonneg; lia).
    set (U := 2 ^ (e + -46 + 1200)).
    assert (HU : 0 < U) by (apply Z.pow_pos_nonneg; lia).
    assert (H1 : 2 ^ (e3 + 1200) = T * U)
      by (unfold T, U; rewrite <- Z.pow_add_r by lia; f_equal; lia).
    assert (H2 : W = 2 ^ 46 * U)
      by (unfold W, U; rewrite <- Z.pow_add_r by lia; f_equal; lia).
    assert (H3 : T * U <= 2 ^ 1155).
    { rewrite <- H1. apply Z.pow_le_mono_r; lia. }
    rewrite H1, H2.
    replace (m3 * (T * U) - 100 * (m * (2 ^ 46 * U)))
      with ((m3 * T - mx) * U) by (rewrite Hmx; ring).
    rewrite Z.abs_mul, (Z.abs_eq U) by lia.
    apply Z.le_trans with (2 * T * U).
    + apply Z.mul_le_mono_nonneg_r; lia.
    + change (2 ^ 1156) with (2 * 2 ^ 1155). lia.
Qed.

(** The tenths chosen by the format: the nearest integer to ten times the
    value. *)
Lemma decimas_error (m3 : positive) (e3 : Z) :
  e3 < 0 ->
  0 <= decimas m3 e3
  /\ 2 * Z.abs (decimas m3 e3 * 2 ^ (- e3) - 10 * Zpos m3) <= 2 ^ (- e3).
Proof.
  intros He. unfold decimas.
  destruct (Z.leb_spec 0 e3) as [| _]; [lia|].
  set (d := 2 ^ (- e3)).
  assert (Hd : 0 < d) by (apply Z.pow_pos_nonneg; lia).
  set (n := Zpos m3 * 10).
  assert (Hdm := Z.div_mod n d ltac:(lia)).
  assert (Hmod := Z.mod_pos_bound n d Hd).
  assert (Hq : 0 <= n / d) by (apply Z.div_pos; lia).
  destruct (Z.compare_spec (2 * (n mod d)) d) as [Heq | Hlt | Hgt].
  - destruct (Z.even (n / d)); (split; [lia|]);
      apply Z.mul_le_mono_nonneg_l with (p := 1) in Hq; lia.
  - split; [lia|]. lia.
  - split; [lia|]. lia.
Qed.

Lemma append_asociativa (a b c : string) :
  ((a ++ b) ++ c = a ++ (b ++ c))%string.
Proof. induction a as [| x a IH]; simpl; [reflexivity | now rewrite IH]. Qed.

Lemma formato_1f_flotante (m3 e3 : Z) :
  0 <= m3 -> e3 < 0 ->
  exists n,
    formato_1f (flotante m3 e3)
    = (NilZero.string_of_int (Z.to_int (n / 10)) ++ "."
       ++ NilZero.string_of_int (Z.to_int (n mod 10)))%string
    /\ 0 <= n
    /\ 2 * Z.abs (n * 2 ^ (- e3) - 10 * m3) <= 2 ^ (- e3).
Proof.
  intros Hm He. unfold flotante.
  assert (Hp : 0 < 2 ^ (- e3)) by (apply Z.pow_pos_nonneg; lia).
  destruct (Z.eqb_spec m3 0) as [-> | Hne].
  - exists 0. split; [reflexivity|]. simpl Z.abs. lia.
  - destruct (decimas_error (Z.to_pos m3) e3 He) as [Hn Herr].
    exists (decimas (Z.to_pos m3) e3).
    split; [reflexivity | split; [exact Hn|]].
    rewrite Z2Pos.id in Herr by lia. exact Herr.
Qed.

(** The rate of a table of [total] rows of which [alta] are "ALTA
    PRIORIDAD": the text shows [n] tenths of a percent, where [n] is
    [1000 * alta / total] rounded to the nearest integer. *)
Lemma tasa_de_conversion (alta total : Z) :
  0 <= alta <= total -> 0 < total ->
  exists cociente n,
    truediv alta total = inr cociente
    /\ formato_1f (Float64.mul cociente Float64.hundred)
       = (NilZero.string_of_int (Z.to_int (n / 10)) ++ "."
          ++ NilZero.string_of_int (Z.to_int (n mod 10)))%string
    /\ 0 <= n <= 1000
    /\ 2 ^ 38 * Z.abs (n * total - 1000 * alta) <= (2 ^ 37 + 1) * total.
Proof.
  intros Ha Hb.
  destruct (truediv_error alta total Ha Hb) as (m & e & Ht & Hm & He & Hu).
  set (P := 2 ^ 1200) in *.
  set (x := m * 2 ^ (e + 1200)) in *.
  assert (HP : P = 2 ^ 51 * 2 ^ 1149) by reflexivity.
  assert (Hx : x <= P + 3 * 2 ^ 1149).
  { apply (Z.mul_le_mono_pos_r _ _ total Hb).
    apply Z.abs_le in Hu.
    assert (alta * P <= total * P)
      by (apply Z.mul_le_mono_nonneg_r; unfold P; lia).
    lia. }
  destruct (mul_hundred_error m e Hm He) as (m3 & e3 & Hmul & Hm3 & He3 & Hv).
  { fold x. fold P. lia. }
  fold x in Hv.
  destruct (formato_1f_flotante m3 e3 Hm3) as (n & Hf & Hn & Hw); [lia|].
  exists (flotante m e), n.
  set (x3 := m3 * 2 ^ (e3 + 1200)) in *.
  assert (Hw' : 2 * Z.abs (n * P - 10 * x3) <= P).
  { set (V := 2 ^ (e3 + 1200)).
    assert (HV : 0 < V) by (apply Z.pow_pos_nonneg; lia).
    assert (HD : P = 2 ^ (- e3) * V)
      by (unfold P, V; rewrite <- Z.pow_add_r by lia; f_equal; lia).
    unfold x3. fold V. rewrite HD.
    replace (n * (2 ^ (- e3) * V) - 10 * (m3 * V))
      with ((n * 2 ^ (- e3) - 10 * m3) * V) by ring.
    rewrite Z.abs_mul, (Z.abs_eq V) by lia.
    rewrite Z.mul_assoc. apply Z.mul_le_mono_nonneg_r; lia. }
  assert (Hwb : 2 * Z.abs ((n * P - 10 * x3) * total) <= P * total).
  { rewrite Z.abs_mul, (Z.abs_eq total) by lia.
    rewrite Z.mul_assoc. apply Z.mul_le_mono_nonneg_r; lia. }
  assert (Hvb : Z.abs ((x3 - 100 * x) * total) <= 2 ^ 1156 * total).
  { rewrite Z.abs_mul, (Z.abs_eq total) by lia.
    apply Z.mul_le_mono_nonneg_r; lia. }
  assert (Hid : (n * total - 1000 * alta) * P
                = (n * P - 10 * x3) * total
                  + 10 * ((x3 - 100 * x) * total)
                  + 1000 * (x * total - alta * P)) by ring.
  assert (Hfin : Z.abs (n * total - 1000 * alta) * P
                 <= (2 ^ 1199 + 2 ^ 1162) * total).
  { rewrite <- (Z.abs_eq P) at 1 by (unfold P; lia).
    rewrite <- Z.abs_mul, Hid.
    assert (H1199 : P = 2 * 2 ^ 1199) by reflexivity.
    assert (H1156 : 2 ^ 1156 = 128 * 2 ^ 1149) by reflexivity.
    assert (H1162 : 2 ^ 1162 = 8192 * 2 ^ 1149) by reflexivity.
    set (c := 2 ^ 1149) in *. set (h := 2 ^ 1199) in *.
    assert (0 < c) by (unfold c; lia).
    assert (0 <= c * total) by (apply Z.mul_nonneg_nonneg; lia).
    lia. }
  assert (Hgoal : 2 ^ 38 * Z.abs (n * total - 1000 * alta)
                  <= (2 ^ 37 + 1) * total).
  { apply (Z.mul_le_mono_pos_r _ _ (2 ^ 1162)); [lia|].
    replace (2 ^ 38 * Z.abs (n * total - 1000 * alta) * 2 ^ 1162)
      with (Z.abs (n * total - 1000 * alta) * P)
      by (unfold P; change (2 ^ 1200) with (2 ^ 38 * 2 ^ 1162); ring).
    replace ((2 ^ 37 + 1) * total * 2 ^ 1162)
      with ((2 ^ 1199 + 2 ^ 1162) * total)
      by (change (2 ^ 1199) with (2 ^ 37 * 2 ^ 1162); ring).
    exact Hfin. }
  split; [exact Ht | split; [now rewrite Hmul | split; [|exact Hgoal]]].
  split; [exact Hn|].
  assert (Hlt : n * total < 1001 * total) by lia.
  apply Z.mul_lt_mono_pos_r in Hlt; lia.
Qed.

(** C10: on the empty table the division raises [ZeroDivisionError] and no
    record of metrics is produced.  On every table with at least one row
    the record is produced; it holds the number of rows, the number of
    "ALTA PRIORIDAD" rows, and the rate [alta_prioridad / total_leads]
    written as a percentage with one decimal: the text is [n / 10], a
    point, [n mod 10] and a percent sign, where [n] is the integer nearest
    to [1000 * alta_prioridad / total_leads] (either neighbour when the
    quotient lies within 2^-38 of a half). *)
Theorem metricas_clave_requiere_filas :
  calcular_metricas_clave [] = inl ZeroDivisionError
  /\ forall (fila : Lead) (df : list Lead),
       let tabla := fila :: df in
       let total := Z.of_nat (List.length tabla) in
       let alta :=
         Z.of_nat
           (List.length
              (filter (fun f => String.eqb (Prioridad f) "ALTA PRIORIDAD")
                 tabla)) in
       exists n : Z,
         0 <= n <= 1000
         /\ 2 ^ 38 * Z.abs (n * total - 1000 * alta) <= (2 ^ 37 + 1) * total
         /\ calcular_metricas_clave tabla
            = inr {| total_leads := total;
                     alta_prioridad := alta;
                     sin_web := len (filtrar_sin_web tabla);
                     rating_bajo := len (filtrar_rating_bajo tabla);
                     tasa_conversion_estimada :=
                       NilZero.string_of_int (Z.to_int (n / 10)) ++ "."
                       ++ NilZero.string_of_int (Z.to_int (n mod 10)) ++ "%";
                     valor_potencial_total := total * 2500 |}.
Proof.
  split; [reflexivity|].
  intros fila df tabla total alta.
  change total with (len tabla) in *.
  change alta with (len (filtrar_alta tabla)) in *.
  destruct (tasa_de_conversion (len (filtrar_alta tabla)) (len tabla))
    as (c & n & Hc & Hf & Hn & Herr).
  - apply len_filter_le.
  - unfold len, tabla. simpl List.length. lia.
  - exists n. split; [exact Hn | split; [exact Herr|]].
    unfold calcular_metricas_clave.
    rewrite Hc, Hf. rewrite !append_asociativa. reflexivity.
Qed.

Example metricas_un_tercio :
  calcular_metricas_clave
    [fila_de_ejemplo "a" "ALTA PRIORIDAD" Float64.zero;
     fila_de_ejemplo "b" "Normal" Float64.four;
     fila_de_ejemplo "c" "Normal" Float64.four]
  = inr {| total_leads := 3; alta_prioridad := 1; sin_web := 3;
           rating_bajo := 1; tasa_conversion_estimada := "33.3%";
           valor_potencial_total := 7500 |}.
Proof. reflexivity. Qed.

(** ** The theorems at concrete inputs *)

Example f4_8_es_4_8 : float_de_decimal "4.8" = Some f4_8.
Proof. reflexivity. Qed.

(** Five leads out of order: the export puts the three "ALTA PRIORIDAD"
    ones first, by falling rating, the two rated 3.2 in their original
    order. *)
Example filas_csv_ejemplo :
  map Nombre
    (filas_csv
       [fila_de_ejemplo "a" "Normal" f4_5;
        fila_de_ejemplo "b" "ALTA PRIORIDAD" f3_2;
        fila_de_ejemplo "c" "ALTA PRIORIDAD" Float64.zero;
        fila_de_ejemplo "d" "ALTA PRIORIDAD" f3_2;
        fila_de_ejemplo "e" "Normal" f4_8])
  = [VStr "b"; VStr "d"; VStr "c"; VStr "e"; VStr "a"].
Proof. reflexivity. Qed.

Lemma guardar_csv_ordenado_witness :
  let L := [fila_de_ejemplo "a" "Normal" f4_5;
            fila_de_ejemplo "b" "ALTA PRIORIDAD" f3_2;
            fila_de_ejemplo "c" "ALTA PRIORIDAD" Float64.zero;
            fila_de_ejemplo "d" "ALTA PRIORIDAD" f3_2;
            fila_de_ejemplo "e" "Normal" f4_8] in
  let st := generador_de_ejemplo L in
  leads st = L
  /\ Permutation (filas_csv (leads st)) (leads st)
  /\ StronglySorted no_creciente (filtrar_alta (filas_csv (leads st)))
  /\ (forall x,
        filter (misma_clave x) (filas_csv (leads st))
        = filter (misma_clave x) (leads st)).
Proof.
  intros L st. split; [reflexivity|].
  destruct (guardar_csv_ordenado "clientes_potenciales.csv" st
              (fila_de_ejemplo "a" "Normal" f4_5)
              [fila_de_ejemplo "b" "ALTA PRIORIDAD" f3_2;
               fila_de_ejemplo "c" "ALTA PRIORIDAD" Float64.zero;
               fila_de_ejemplo "d" "ALTA PRIORIDAD" f3_2;
               fila_de_ejemplo "e" "Normal" f4_8] eq_refl)
    as (_ & Hp & _ & Hs & _ & He).
  split; [exact Hp | split; [exact Hs | exact He]].
Defined.

Lemma buscar_negocios_fallo_witness :
  let st := generador_de_ejemplo [] in
  desenlace_de (red_de_ejemplo (n_solicitudes (traza st))
                  (params_de st "Talleres mecánicos" 20))
  = Falla (RequestException "ConnectTimeout")
  /\ buscar_negocios float_de_decimal red_de_ejemplo reloj_de_ejemplo
       "Talleres mecánicos" 20 st
     = (inr tt,
        agregar st []
          [Print (MsgBuscando "Talleres mecánicos" "Toledo");
           HttpGet (params_de st "Talleres mecánicos" 20);
           Print (MsgErrorHTTP (RequestException "ConnectTimeout"))]).
Proof.
  intros st. split; [reflexivity|].
  exact (proj1 (buscar_negocios_fallo float_de_decimal red_de_ejemplo
                  reloj_de_ejemplo "Talleres mecánicos" 20 st
                  (RequestException "ConnectTimeout") eq_refl)).
Defined.

Lemma sin_leads_no_escribe_witness :
  let st := generador_de_ejemplo [] in
  leads (snd (ejecutar_busqueda_completa float_de_decimal red_sin_resultados
                reloj_de_ejemplo st)) = []
  /\ exists evs,
       ejecutar_busqueda_completa float_de_decimal red_sin_resultados
         reloj_de_ejemplo st
       = (inr tt, agregar st [] (evs ++ [Print MsgNoSeEncontraronLeads]))
       /\ csvs (evs ++ [Print MsgNoSeEncontraronLeads]) = [].
Proof.
  intros st. split; [reflexivity|].
  exact (proj1 (sin_leads_no_escribe float_de_decimal red_sin_resultados
                  reloj_de_ejemplo st eq_refl)).
Defined.

(** With [red_de_ejemplo] only the third category yields records: one
    "Normal" lead and one "ALTA PRIORIDAD" lead, hence two files. *)
Lemma con_leads_escribe_dos_witness :
  let st := generador_de_ejemplo [] in
  leads (snd (ejecutar_busqueda_completa float_de_decimal red_de_ejemplo
                reloj_de_ejemplo st))
  = [lead_abc; lead_xyz]
  /\ exists evs,
       traza (snd (ejecutar_busqueda_completa float_de_decimal red_de_ejemplo
                     reloj_de_ejemplo st))
       = (traza st ++ evs)%list
       /\ csvs evs
          = [("clientes_potenciales.csv", [lead_xyz; lead_abc]);
             ("clientes_alta_prioridad.csv", [lead_xyz])].
Proof.
  intros st.
  assert (HL : leads (snd (ejecutar_busqueda_completa float_de_decimal
                             red_de_ejemplo reloj_de_ejemplo st))
               = [lead_abc; lead_xyz])
    by (vm_compute; reflexivity).
  split; [exact HL|].
  destruct (con_leads_escribe_dos float_de_decimal red_de_ejemplo
              reloj_de_ejemplo st lead_abc [lead_xyz] HL)
    as (evs & _ & Ht & Hc & _).
  exists evs. split; [exact Ht|]. rewrite Hc. vm_compute. reflexivity.
Defined.

(** * Further properties of the lead generator *)

(** ** What a run puts into the leads *)

Section Invariantes.
Variable float_de_str : string -> option Float64.t.
Variable red : nat -> solicitud -> resultado respuesta.
Variable ahora : nat -> string.

Lemma extraer_lead_campos (c t f : string) (negocio : valor) (lead : Lead) :
  extraer_lead float_de_str c t f negocio = inr lead ->
  lead_coherente lead /\ Ciudad lead = c /\ Tipo_Negocio lead = t.
Proof.
  unfold extraer_lead. destruct negocio; try discriminate.
  destruct (extraer_rating float_de_str d); [discriminate|].
  intros [= <-]. repeat split.
Qed.

Lemma leads_extraidos_In (c t : string) (negocios : list valor) (lead : Lead) :
  forall n,
    In lead (leads_extraidos float_de_str ahora c t n negocios) ->
    exists negocio f,
      In negocio negocios
      /\ extraer_lead float_de_str c t f negocio = inr lead.
Proof.
  induction negocios as [| x r IH]; intros n; simpl; [tauto|].
  destruct (extraer_lead float_de_str c t (ahora n) x) as [e | l0] eqn:Hx.
  - intros H. destruct (IH _ H) as (negocio & f & Hin & He).
    exists negocio, f. auto.
  - intros [<- | H].
    + exists x, (ahora n). auto.
    + destruct (IH _ H) as (negocio & f & Hin & He).
      exists negocio, f. auto.
Qed.

Lemma buscar_negocios_leads (tipo : string) (max : Z) (st : GeneradorLeads)
  (lead : Lead) :
  In lead (leads (snd (buscar_negocios float_de_str red ahora tipo max st))) ->
  In lead (leads st)
  \/ (lead_coherente lead /\ Ciudad lead = ciudad st
      /\ Tipo_Negocio lead = tipo).
Proof.
  rewrite buscar_negocios_eq. cbv zeta.
  destruct (desenlace_de _) as [e | datos | negocios]; cbn [snd];
    rewrite leads_agregar, in_app_iff; intros [H | H]; auto;
    try contradiction.
  right. apply leads_extraidos_In in H. destruct H as (negocio & f & _ & H).
  eapply extraer_lead_campos. exact H.
Qed.

Lemma bucle_leads (max : Z) (tipos : list string) (lead : Lead) :
  forall st,
    In lead
      (leads (snd (for_each tipos
                     (fun tipo =>
                        bind (buscar_negocios float_de_str red ahora tipo max)
                             (fun _ => emit (Sleep 2))) st))) ->
    In lead (leads st)
    \/ (lead_coherente lead /\ Ciudad lead = ciudad st
        /\ In (Tipo_Negocio lead) tipos).
Proof.
  induction tipos as [| tipo resto IH]; intros st; [simpl; auto|].
  destruct (buscar_negocios_marco float_de_str red ahora tipo max st)
    as (n1 & e1 & H1 & _).
  assert (Hb := buscar_negocios_leads tipo max st lead).
  cbn [for_each]. unfold bind at 1. unfold bind at 1.
  rewrite H1 in Hb |- *. rewrite emit_eq. cbn [snd] in Hb.
  intros H. apply IH in H. cbn [ciudad agregar] in H.
  destruct H as [H | (Hc & Hci & Ht)].
  - rewrite agregar_agregar in H.
    change (leads (agregar st (n1 ++ []) (e1 ++ [Sleep 2])))
      with (leads st ++ (n1 ++ []))%list in H.
    rewrite app_nil_r in H.
    destruct (Hb H) as [? | (? & ? & ?)]; [now left|].
    right. repeat split; auto. left. auto.
  - right. repeat split; auto. now right.
Qed.

(** The run is its loop followed by the writes or the final report. *)
Lemma ejecutar_busqueda_completa_bucle (st : GeneradorLeads) :
  leads (snd (ejecutar_busqueda_completa float_de_str red ahora st))
  = leads (snd (bucle_busqueda float_de_str red ahora st)).
Proof.
  unfold bucle_busqueda.
  destruct (bucle_marco float_de_str red ahora 20 tipos_negocio st)
    as (nuevos & evs & H & _).
  unfold ejecutar_busqueda_completa. unfold bind at 1.
  change (fun tipo : string =>
            (buscar_negocios float_de_str red ahora tipo 20 ;; emit (Sleep 2))%M)
    with (fun tipo : string =>
            bind (buscar_negocios float_de_str red ahora tipo 20)
                 (fun _ => emit (Sleep 2))).
  rewrite H. cbn [snd]. unfold bind at 1. unfold get_self at 1.
  set (st1 := agregar st nuevos evs).
  destruct (leads st1) as [| l ls] eqn:Hl.
  - rewrite print_eq. cbn [snd]. rewrite leads_agregar, Hl. reflexivity.
  - unfold bind at 1. rewrite guardar_csv_eq, Hl.
    unfold bind at 1. unfold get_self at 1.
    set (evs1 := ToCsv _ _ :: estadisticas _ _ _).
    assert (Hl1 : leads (agregar st1 [] evs1) = l :: ls).
    { unfold agregar; simpl. now rewrite app_nil_r. }
    rewrite Hl1. unfold DataFrame.
    destruct (filtrar_alta (l :: ls)) as [| a ra] eqn:Ha.
    + unfold ret. cbn [snd]. exact Hl1.
    + unfold bind. rewrite emit_eq, print_eq. cbn [snd].
      rewrite !leads_agregar, !app_nil_r. exact Hl.
Qed.

End Invariantes.

(** X1: after a run of a fresh generator every lead carries the city of
    the generator, one of the three categories, and the priority its own
    rating and website give. *)
Theorem leads_de_una_ejecucion
  (float_de_str : string -> option Float64.t)
  (red : nat -> solicitud -> resultado respuesta) (ahora : nat -> string)
  (clave ciudad_ : string) :
  Forall
    (fun lead =>
       lead_coherente lead
       /\ Ciudad lead = ciudad_
       /\ In (Tipo_Negocio lead) tipos_negocio)
    (leads (snd (ejecutar_busqueda_completa float_de_str red ahora
                   (__init__ clave ciudad_)))).
Proof.
  rewrite ejecutar_busqueda_completa_bucle. apply Forall_forall.
  intros lead H. apply bucle_leads in H.
  destruct H as [H | H]; [contradiction | exact H].
Qed.

(** ** Edge cases of the extraction *)

Lemma lead_de_procesar_negocio
  (float_de_str : string -> option Float64.t) (ahora : nat -> string)
  (negocio : valor) (tipo : string) (st : GeneradorLeads) (lead : Lead)
  (evs : list evento) :
  procesar_negocio float_de_str ahora negocio tipo st
  = (inr tt, agregar st [lead] evs) ->
  extraer_lead float_de_str (ciudad st) tipo
    (ahora (List.length (leads st))) negocio = inr lead.
Proof.
  rewrite procesar_negocio_eq.
  destruct (extraer_lead _ _ _ _ _) as [e | l0]; intros [= Hl _].
  - unfold agregar in Hl. apply (f_equal (@List.length Lead)) in Hl.
    rewrite !length_app in Hl. simpl in Hl. lia.
  - apply app_inv_head in Hl. now injection Hl as <-.
Qed.

Lemma ALTA_no_es_NORMAL : ALTA_PRIORIDAD <> NORMAL.
Proof. discriminate. Qed.

(** X2: a record counts as having no website only when the key
    ["website"] is missing or holds the string "No disponible".  Its lead
    is "ALTA PRIORIDAD" exactly when the rating is below 4.0 or the record
    has no website in that sense; a [null] website with a rating that is
    not below 4.0 gives "Normal". *)
Theorem prioridad_segun_sitio_web
  (float_de_str : string -> option Float64.t) (ahora : nat -> string)
  (d : list (string * valor)) (tipo : string) (st : GeneradorLeads)
  (lead : Lead) (evs : list evento) :
  procesar_negocio float_de_str ahora (VDict d) tipo st
  = (inr tt, agregar st [lead] evs) ->
  (Prioridad lead = ALTA_PRIORIDAD
   <-> Float64.ltb (Calificacion lead) Float64.four = true
       \/ sin_dato d "website" = true)
  /\ (dict_lookup d "website" = Some VNone ->
      Float64.ltb (Calificacion lead) Float64.four = false ->
      Sitio_Web lead = VNone /\ Prioridad lead = NORMAL).
Proof.
  intros H. apply lead_de_procesar_negocio in H.
  unfold extraer_lead in H.
  destruct (extraer_rating float_de_str d) as [e | r]; [discriminate|].
  injection H as <-. cbn [Prioridad Calificacion Sitio_Web].
  unfold _determinar_prioridad, sin_dato, dict_get.
  split.
  - destruct (Float64.ltb r Float64.four); [intuition|].
    destruct (dict_lookup d "website") as [v |]; cbn [orb].
    + destruct (eq_str v SENTINELA); intuition discriminate.
    + cbn. intuition.
  - intros -> ->. split; reflexivity.
Qed.

Lemma prioridad_segun_sitio_web_witness :
  let d := [("title", VStr "Gestoria Sol"); ("rating", VFloat f4_5);
            ("website", VNone)] in
  exists lead,
    (Prioridad lead = ALTA_PRIORIDAD
     <-> Float64.ltb (Calificacion lead) Float64.four = true
         \/ sin_dato d "website" = true)
    /\ (dict_lookup d "website" = Some VNone ->
        Float64.ltb (Calificacion lead) Float64.four = false ->
        Sitio_Web lead = VNone /\ Prioridad lead = NORMAL).
Proof.
  intros d. eexists.
  eapply (prioridad_segun_sitio_web float_de_decimal reloj_de_ejemplo d
            "Agencias de seguros" (generador_de_ejemplo [])).
  rewrite procesar_negocio_eq. simpl. reflexivity.
Defined.

(** X3: a record whose rating is missing, falsy (null, 0, 0.0, false, an
    empty string, list or object) or a string [float] rejects becomes a
    lead with rating 0.0 and, whatever its website, priority "ALTA
    PRIORIDAD". *)
Theorem rating_por_defecto_es_alta
  (float_de_str : string -> option Float64.t) (ahora : nat -> string)
  (d : list (string * valor)) (tipo : string) (st : GeneradorLeads) :
  float_de_str "0" = Some Float64.zero ->
  dict_lookup d "rating" = None
  \/ (exists v, dict_lookup d "rating" = Some v /\ truthy v = false)
  \/ (exists s, dict_lookup d "rating" = Some (VStr s)
                /\ float_de_str s = None) ->
  exists lead,
    procesar_negocio float_de_str ahora (VDict d) tipo st
    = (inr tt,
       agregar st [lead] [Print (MsgEncontrado (Nombre lead) ALTA_PRIORIDAD)])
    /\ Calificacion lead = Float64.zero
    /\ Prioridad lead = ALTA_PRIORIDAD.
Proof.
  intros H0 H.
  assert (Hr : extraer_rating float_de_str d = inr Float64.zero).
  { unfold extraer_rating, dict_get.
    destruct H as [-> | [(v & -> & Hv) | (s & -> & Hs)]].
    - simpl. now rewrite H0.
    - now rewrite Hv.
    - simpl. destruct (negb (s =? "")%string); [now rewrite Hs | reflexivity]. }
  rewrite procesar_negocio_eq. unfold extraer_lead. rewrite Hr.
  eexists. split; [reflexivity|]. split; reflexivity.
Qed.

Lemma rating_por_defecto_es_alta_witness :
  let d := [("title", VStr "Clinica Norte"); ("rating", VStr "4,5");
            ("website", VStr "https://norte.example")] in
  exists lead,
    procesar_negocio float_de_decimal reloj_de_ejemplo (VDict d) "Clínicas"
      (generador_de_ejemplo [])
    = (inr tt,
       agregar (generador_de_ejemplo []) [lead]
         [Print (MsgEncontrado (Nombre lead) ALTA_PRIORIDAD)])
    /\ Calificacion lead = Float64.zero
    /\ Prioridad lead = ALTA_PRIORIDAD.
Proof.
  intros d.
  apply (rating_por_defecto_es_alta float_de_decimal reloj_de_ejemplo d
           "Clínicas" (generador_de_ejemplo []) eq_refl).
  right. right. exists "4,5". split; reflexivity.
Defined.

Lemma leads_extraidos_ninguno
  (float_de_str : string -> option Float64.t) (ahora : nat -> string)
  (c t : string) (negocios : list valor) :
  Forall (fun negocio => extraccion_ok float_de_str negocio = false) negocios ->
  forall n, leads_extraidos float_de_str ahora c t n negocios = [].
Proof.
  induction 1 as [| x r Hx _ IH]; intros n; simpl; [reflexivity|].
  destruct (extraer_lead_falla float_de_str c t (ahora n) x Hx) as [e ->].
  apply IH.
Qed.

(** X4: only a JSON array under ["local_results"] can yield leads.  When
    the value is an object or a string its keys or characters are visited
    and each is skipped; for any other value the loop does not start.  In
    every case [self.leads] is left as it was. *)
Theorem resultados_no_lista_sin_leads
  (float_de_str : string -> option Float64.t) (ahora : nat -> string)
  (resultados : valor) (tipo : string) (st : GeneradorLeads) :
  (forall l, resultados <> VList l) ->
  leads (snd (_procesar_resultados float_de_str ahora resultados tipo st))
  = leads st.
Proof.
  intros Hno. rewrite procesar_resultados_eq.
  assert (Hstr : forall ks : list string,
             Forall (fun negocio => extraccion_ok float_de_str negocio = false)
               (map VStr ks)).
  { intros ks. apply Forall_forall. intros x Hx.
    apply in_map_iff in Hx. destruct Hx as (k & <- & _). reflexivity. }
  destruct resultados as [| b | n | x | s | l | d]; cbn [iterar snd];
    try reflexivity.
  - rewrite leads_agregar, leads_extraidos_ninguno by apply Hstr.
    apply app_nil_r.
  - now destruct (Hno l).
  - rewrite leads_agregar, leads_extraidos_ninguno by apply Hstr.
    apply app_nil_r.
Qed.

Lemma resultados_no_lista_sin_leads_witness :
  let resultados := VDict [("0", negocio_abc); ("1", negocio_xyz)] in
  leads (snd (_procesar_resultados float_de_decimal reloj_de_ejemplo
                resultados "Clínicas" (generador_de_ejemplo [lead_abc])))
  = [lead_abc].
Proof.
  intros resultados.
  apply (resultados_no_lista_sin_leads float_de_decimal reloj_de_ejemplo
           resultados "Clínicas" (generador_de_ejemplo [lead_abc])).
  intros l H. discriminate H.
Defined.

(** X5: a response that decodes to a JSON object without the key
    ["local_results"] (an error document of the service, say) is not an
    error for [buscar_negocios]: after its one request it prints the two
    warning lines, no error line, and leaves [self.leads] as it was. *)
Theorem respuesta_sin_local_results
  (float_de_str : string -> option Float64.t)
  (red : nat -> solicitud -> resultado respuesta) (ahora : nat -> string)
  (tipo : string) (max : Z) (st : GeneradorLeads) (resp : respuesta)
  (d : list (string * valor)) :
  red (n_solicitudes (traza st)) (params_de st tipo max) = inr resp ->
  raise_for_status resp = None ->
  json resp = inr (VDict d) ->
  dict_lookup d "local_results" = None ->
  buscar_negocios float_de_str red ahora tipo max st
  = (inr tt,
     agregar st []
       [Print (MsgBuscando tipo (ciudad st));
        HttpGet (params_de st tipo max);
        Print MsgSinResultados;
        Print (MsgEstructura (VDict d))]).
Proof.
  intros Hr Hs Hj Hk. rewrite buscar_negocios_eq. cbv zeta.
  unfold desenlace_de. rewrite Hr, Hs, Hj. cbn [py_in]. rewrite Hk.
  reflexivity.
Qed.

Lemma respuesta_sin_local_results_witness :
  let st := generador_de_ejemplo [] in
  let d := [("error", VStr "Invalid API key.")] in
  let red := fun (_ : nat) (_ : solicitud) =>
               inr {| raise_for_status := None; json := inr (VDict d) |} in
  buscar_negocios float_de_decimal red reloj_de_ejemplo "Clínicas" 20 st
  = (inr tt,
     agregar st []
       [Print (MsgBuscando "Clínicas" (ciudad st));
        HttpGet (params_de st "Clínicas" 20);
        Print MsgSinResultados;
        Print (MsgEstructura (VDict d))]).
Proof.
  intros st d red.
  exact (respuesta_sin_local_results float_de_decimal red reloj_de_ejemplo
           "Clínicas" 20 st
           {| raise_for_status := None; json := inr (VDict d) |} d
           eq_refl eq_refl eq_refl eq_refl).
Defined.

(** ** More on the export *)

Section OrdenYFiltro.
Context {A : Type} (leb : A -> A -> bool).
Hypothesis leb_total : forall a b, leb a b = false -> leb b a = true.
Hypothesis leb_trans :
  forall a b c, leb a b = true -> leb b c = true -> leb a c = true.

Lemma ordenar_ya_ordenada (l : list A) :
  StronglySorted (fun a b => leb a b = true) l -> ordenar leb l = l.
Proof.
  induction 1 as [| x l Hs IH Hall]; [reflexivity|].
  cbn [ordenar]. rewrite IH.
  destruct l as [| y l']; [reflexivity|].
  cbn [insertar]. inversion Hall as [| ? ? Hxy _]; subst. now rewrite Hxy.
Qed.

Lemma insertar_cabeza (x : A) (l : list A) :
  Forall (fun y => leb x y = true) l -> insertar leb x l = x :: l.
Proof.
  destruct 1 as [| y l' Hxy _]; [reflexivity|].
  cbn [insertar]. now rewrite Hxy.
Qed.

Lemma filter_insertar (P : A -> bool) (x : A) (l : list A) :
  StronglySorted (fun a b => leb a b = true) l ->
  filter P (insertar leb x l)
  = if P x then insertar leb x (filter P l) else filter P l.
Proof.
  induction 1 as [| y l Hs IH Hall]; cbn [insertar filter].
  - destruct (P x); reflexivity.
  - destruct (leb x y) eqn:Hxy.
    + cbn [filter]. destruct (P x); [|reflexivity].
      symmetry. apply insertar_cabeza.
      assert (Hx : Forall (fun z => leb x z = true) (y :: l)).
      { constructor; [exact Hxy|].
        eapply Forall_impl; [|exact Hall].
        intros z Hz. exact (leb_trans _ _ _ Hxy Hz). }
      rewrite Forall_forall in *. intros z Hz.
      apply Hx. change (In z (filter P (y :: l))) in Hz.
      now apply filter_In in Hz.
    + cbn [filter]. rewrite IH.
      destruct (P y), (P x); cbn [insertar]; rewrite ?Hxy; reflexivity.
Qed.

Lemma filter_ordenar (P : A -> bool) (l : list A) :
  filter P (ordenar leb l) = ordenar leb (filter P l).
Proof.
  induction l as [| x l IH]; [reflexivity|].
  cbn [ordenar filter].
  rewrite filter_insertar by (apply ordenar_sorted; assumption).
  rewrite IH. destruct (P x); reflexivity.
Qed.

End OrdenYFiltro.

Lemma filter_length_perm {A} (f : A -> bool) (l l' : list A) :
  Permutation l l' ->
  List.length (filter f l) = List.length (filter f l').
Proof.
  induction 1 as [| x l l' _ IH | x y l | l l' l'' _ IH1 _ IH2];
    cbn [filter]; try reflexivity.
  - destruct (f x); cbn [List.length]; now rewrite IH.
  - destruct (f x), (f y); reflexivity.
  - now rewrite IH1.
Qed.

(** X6: the order of the export is a fixed point: exporting rows that
    were already exported gives them back unchanged. *)
Theorem filas_csv_idempotente (L : list Lead) :
  filas_csv (filas_csv L) = filas_csv L.
Proof.
  rewrite !filas_csv_eq.
  apply ordenar_ya_ordenada.
  apply ordenar_sorted; [exact lead_leb_total | exact lead_leb_trans].
Qed.

(** X7: the statistics [guardar_csv] prints after the write, although
    computed on the sorted table, are those of [self.leads]: the same
    total and the same counts of "ALTA PRIORIDAD" rows, of rows without
    website and of rows rated below 4. *)
Theorem estadisticas_de_los_leads (n : nat) (filename : string)
  (L : list Lead) :
  estadisticas n filename (filas_csv L) = estadisticas n filename L
  /\ List.length (filas_csv L) = List.length L.
Proof.
  assert (Hp : Permutation (filas_csv L) L)
    by (rewrite filas_csv_eq; apply ordenar_perm).
  split; [|now apply Permutation_length].
  unfold estadisticas, filtrar_alta, filtrar_sin_web, filtrar_rating_bajo.
  rewrite (Permutation_length Hp).
  rewrite (filter_length_perm es_alta _ _ Hp).
  rewrite (filter_length_perm _ _ _ Hp).
  rewrite (filter_length_perm
             (fun fila => Float64.ltb (Calificacion fila) Float64.four) _ _ Hp).
  reflexivity.
Qed.

Lemma es_alta_coherente (lead : Lead) :
  lead_coherente lead ->
  es_alta lead
  = Float64.ltb (Calificacion lead) Float64.four
    || eq_str (Sitio_Web lead) SENTINELA.
Proof.
  unfold lead_coherente, es_alta, _determinar_prioridad. intros ->.
  destruct (Float64.ltb _ _ || eq_str _ _); reflexivity.
Qed.

(** X8: when every lead has the priority its rating and website give (as
    the leads of a run do), the printed count of "ALTA PRIORIDAD" rows is
    at least the count without website, at least the count rated below 4,
    and at most their sum. *)
Theorem estadisticas_alta_acotada (L : list Lead) :
  Forall lead_coherente L ->
  (List.length (filtrar_sin_web L) <= List.length (filtrar_alta L))%nat
  /\ (List.length (filtrar_rating_bajo L) <= List.length (filtrar_alta L))%nat
  /\ (List.length (filtrar_alta L)
      <= List.length (filtrar_sin_web L)
         + List.length (filtrar_rating_bajo L))%nat.
Proof.
  unfold filtrar_alta, filtrar_sin_web, filtrar_rating_bajo.
  induction 1 as [| x l Hx _ IH]; cbn [filter List.length]; [lia|].
  rewrite (es_alta_coherente x Hx).
  destruct (Float64.ltb (Calificacion x) Float64.four),
           (eq_str (Sitio_Web x) SENTINELA);
    cbn [orb List.length]; lia.
Qed.

Lemma estadisticas_alta_acotada_witness :
  let L := [lead_abc; lead_xyz] in
  (List.length (filtrar_sin_web L) <= List.length (filtrar_alta L))%nat
  /\ (List.length (filtrar_rating_bajo L) <= List.length (filtrar_alta L))%nat
  /\ (List.length (filtrar_alta L)
      <= List.length (filtrar_sin_web L)
         + List.length (filtrar_rating_bajo L))%nat.
Proof.
  intros L. apply (estadisticas_alta_acotada L).
  repeat constructor.
Defined.

(** X9: the second file and the first agree on the "ALTA PRIORIDAD"
    leads: the rows of that priority in the sorted first file are the rows
    of the second file put in the export order, so both hold the same
    leads, the second in the order of collection. *)
Theorem alta_del_primer_archivo (L : list Lead) :
  filtrar_alta (filas_csv L) = filas_csv (filtrar_alta L)
  /\ Permutation (filtrar_alta (filas_csv L)) (filtrar_alta L).
Proof.
  assert (H : filtrar_alta (filas_csv L) = filas_csv (filtrar_alta L)).
  { rewrite !filas_csv_eq. unfold filtrar_alta.
    apply filter_ordenar; [exact lead_leb_total | exact lead_leb_trans]. }
  split; [exact H|].
  rewrite H, filas_csv_eq. apply ordenar_perm.
Qed.

(** ** The script: main *)

Lemma eventos_de_app (a b : list linea_main) :
  eventos_de (a ++ b) = (eventos_de a ++ eventos_de b)%list.
Proof. induction a as [| [] a IH]; simpl; auto. now rewrite IH. Qed.

Lemma leads_mostrados_app (a b : list linea_main) :
  leads_mostrados (a ++ b) = (leads_mostrados a ++ leads_mostrados b)%list.
Proof. induction a as [| [] a IH]; simpl; auto. now rewrite IH. Qed.

Lemma eventos_de_LGenerador (t : list evento) :
  eventos_de (map LGenerador t) = t
  /\ leads_mostrados (map LGenerador t) = [].
Proof. induction t as [| e t [IH1 IH2]]; simpl; [auto|]. now rewrite IH1. Qed.

Lemma leads_mostrados_LLead (l : list Lead) :
  leads_mostrados (map LLead l) = l /\ eventos_de (map LLead l) = [].
Proof. induction l as [| x l [IH1 IH2]]; simpl; [auto|]. now rewrite IH1. Qed.

Lemma solicitudes_cierre (L : list Lead) : solicitudes (cierre L) = [].
Proof.
  unfold cierre. destruct L; [reflexivity|].
  rewrite solicitudes_app. destruct (filtrar_alta _); reflexivity.
Qed.

(** X10: with the placeholder key, which is the one written in the file,
    [main] prints the banner and the instructions and stops: no generator,
    no request, no file.  With any other key it runs the whole search and
    ends normally; the requests sent are the three category queries with
    that key and city, and the leads listed at the end are the first five
    "ALTA PRIORIDAD" leads in the order of collection. *)
Theorem main_segun_clave
  (float_de_str : string -> option Float64.t)
  (red : nat -> solicitud -> resultado respuesta) (ahora : nat -> string)
  (CIUDAD : string) :
  main_con float_de_str red ahora API_KEY_SIN_CONFIGURAR CIUDAD
  = (inr tt, [LBanner; LErrorApiKey])
  /\ main float_de_str red ahora = (inr tt, [LBanner; LErrorApiKey])
  /\ forall API_KEY,
       API_KEY <> API_KEY_SIN_CONFIGURAR ->
       let generador :=
         snd (ejecutar_busqueda_completa float_de_str red ahora
                (__init__ API_KEY CIUDAD)) in
       exists salida,
         main_con float_de_str red ahora API_KEY CIUDAD = (inr tt, salida)
         /\ eventos_de salida = traza generador
         /\ solicitudes (eventos_de salida)
            = map (fun tipo => params_de (__init__ API_KEY CIUDAD) tipo 20)
                tipos_negocio
         /\ leads_mostrados salida = firstn 5 (filtrar_alta (leads generador))
         /\ (List.length (leads_mostrados salida) <= 5)%nat
         /\ Forall (fun lead => Prioridad lead = ALTA_PRIORIDAD)
              (leads_mostrados salida).
Proof.
  split; [reflexivity | split; [reflexivity|]].
  intros API_KEY Hk generador.
  unfold main_con. apply String.eqb_neq in Hk. rewrite Hk.
  destruct (ejecutar_busqueda_completa_eq float_de_str red ahora
              (__init__ API_KEY CIUDAD)) as (nuevos & evs & H & _ & Hs).
  unfold generador. rewrite H. cbn [snd].
  set (g := agregar (__init__ API_KEY CIUDAD) nuevos
              (evs ++ cierre (leads (__init__ API_KEY CIUDAD) ++ nuevos))).
  destruct (eventos_de_LGenerador (traza g)) as [He Hm].
  assert (Hl5 : leads_mostrados
                  (LBanner :: map LGenerador (traza g)
                   ++ match leads g with
                      | [] => []
                      | _ :: _ =>
                          LCabeceraAlta
                          :: match filtrar_alta (DataFrame (leads g)) with
                             | _ :: _ =>
                                 map LLead
                                   (firstn 5 (filtrar_alta (DataFrame (leads g))))
                             | [] => [LSinAltaPrioridad]
                             end
                          ++ [LCompletado]
                      end)
                = firstn 5 (filtrar_alta (leads g))).
  { cbn [leads_mostrados]. rewrite leads_mostrados_app, Hm. cbn [app].
    unfold DataFrame.
    destruct (leads g) as [| l ls] eqn:Hl; [reflexivity|].
    cbn [leads_mostrados]. rewrite leads_mostrados_app.
    destruct (filtrar_alta (l :: ls)) as [| a ra] eqn:Ha; [reflexivity|].
    destruct (leads_mostrados_LLead (firstn 5 (a :: ra))) as [-> _].
    cbn [leads_mostrados]. apply app_nil_r. }
  eexists. split; [reflexivity|].
  split; [|split; [|split; [exact Hl5 | rewrite Hl5; split]]].
  - cbn [eventos_de]. rewrite eventos_de_app, He. unfold DataFrame.
    destruct (leads g); [apply app_nil_r|].
    cbn [eventos_de]. rewrite eventos_de_app.
    destruct (filtrar_alta _) as [| a ra];
      [cbn; apply app_nil_r|].
    destruct (leads_mostrados_LLead (firstn 5 (a :: ra))) as [_ ->].
    cbn. apply app_nil_r.
  - cbn [eventos_de]. rewrite eventos_de_app, He, solicitudes_app.
    replace (solicitudes (eventos_de _)) with (@nil solicitud).
    + rewrite app_nil_r. unfold g. rewrite traza_agregar.
      cbn [traza __init__ app]. rewrite solicitudes_app, solicitudes_cierre, Hs.
      apply app_nil_r.
    + symmetry. unfold DataFrame. destruct (leads g); [reflexivity|].
      cbn [eventos_de]. rewrite eventos_de_app.
      destruct (filtrar_alta _) as [| a ra]; [reflexivity|].
      destruct (leads_mostrados_LLead (firstn 5 (a :: ra))) as [_ ->].
      reflexivity.
  - apply firstn_le_length.
  - apply Forall_forall. intros lead Hin.
    assert (Hin' : In lead (filtrar_alta (leads g))).
    { rewrite <- (firstn_skipn 5 (filtrar_alta (leads g))).
      apply in_or_app. now left. }
    apply filter_In in Hin'. rename Hin' into Hin2.
    destruct Hin2 as [_ Hin2]. now apply String.eqb_eq in Hin2.
Qed.


Lemma main_segun_clave_witness :
  "clave" <> API_KEY_SIN_CONFIGURAR
  /\ exists salida,
       main_con float_de_decimal red_de_ejemplo reloj_de_ejemplo "clave" "Toledo"
       = (inr tt, salida)
       /\ leads_mostrados salida = [lead_xyz].
Proof.
  assert (Hk : "clave" <> API_KEY_SIN_CONFIGURAR) by discriminate.
  split; [exact Hk|].
  destruct (proj2 (proj2 (main_segun_clave float_de_decimal red_de_ejemplo
                            reloj_de_ejemplo "Toledo")) "clave" Hk)
    as (salida & Hm & _ & _ & Hl & _).
  exists salida. split; [exact Hm|].
  rewrite Hl. vm_compute. reflexivity.
Defined.

(** ** Config.validar_configuracion *)

Lemma vacia_true (s : string) : vacia s = true <-> s = "".
Proof. apply String.eqb_eq. Qed.

(** X11: the validation succeeds, printing nothing, exactly when both
    the SerpApi key and the Airtable key are non-empty.  Otherwise it
    returns [False] and prints the header, one line for each missing key
    (SerpApi first) and the hint; the other settings are not looked at. *)
Theorem validar_configuracion_spec (cls : Config) :
  (fst (validar_configuracion cls) = true
   <-> SERPAPI_API_KEY cls <> "" /\ AIRTABLE_API_KEY cls <> "")
  /\ (fst (validar_configuracion cls) = true ->
      snd (validar_configuracion cls) = [])
  /\ (fst (validar_configuracion cls) = false ->
      snd (validar_configuracion cls)
      = ([CABECERA_ERRORES]
         ++ (if vacia (SERPAPI_API_KEY cls)
             then [("   • " ++ ERROR_SERPAPI)%string] else [])
         ++ (if vacia (AIRTABLE_API_KEY cls)
             then [("   • " ++ ERROR_AIRTABLE)%string] else [])
         ++ [SOLUCION])%list).
Proof.
  unfold validar_configuracion.
  destruct (vacia (SERPAPI_API_KEY cls)) eqn:H1,
           (vacia (AIRTABLE_API_KEY cls)) eqn:H2;
    cbn [app fst snd map];
    try apply vacia_true in H1; try apply vacia_true in H2;
    repeat split; try discriminate; try reflexivity; try tauto;
    intros; try (intros ->; discriminate).
  - apply not_true_iff_false in H1. rewrite vacia_true in H1. exact H1.
  - apply not_true_iff_false in H2. rewrite vacia_true in H2. exact H2.
Qed.

Lemma validar_configuracion_spec_witness :
  let cls := Config_de (fun k =>
                          if String.eqb k "SERPAPI_API_KEY" then Some "abc123"
                          else None) in
  fst (validar_configuracion cls) = false
  /\ snd (validar_configuracion cls)
     = [CABECERA_ERRORES; "   • AIRTABLE_API_KEY no configurada"; SOLUCION].
Proof.
  intros cls. split; [reflexivity|].
  exact (proj2 (proj2 (validar_configuracion_spec cls)) eq_refl).
Defined.

(** X12: read from the environment, the configuration is valid exactly
    when SERPAPI_API_KEY and AIRTABLE_API_KEY are both set to non-empty
    values: a variable set to the empty string counts as missing, and
    AIRTABLE_BASE_ID, SENDGRID_API_KEY and the others play no part. *)
Theorem validar_configuracion_entorno (env : string -> option string) :
  fst (validar_configuracion (Config_de env)) = true
  <-> (exists v, env "SERPAPI_API_KEY" = Some v /\ v <> "")
      /\ (exists v, env "AIRTABLE_API_KEY" = Some v /\ v <> "").
Proof.
  rewrite (proj1 (validar_configuracion_spec (Config_de env))).
  cbn [SERPAPI_API_KEY AIRTABLE_API_KEY Config_de]. unfold getenv.
  destruct (env "SERPAPI_API_KEY") as [v1 |],
           (env "AIRTABLE_API_KEY") as [v2 |];
    split; intros [H1 H2];
    try (exfalso; (now apply H1) || (now apply H2));
    try (destruct H1 as (? & ? & ?); discriminate);
    try (destruct H2 as (? & ? & ?); discriminate).
  - split; eauto.
  - destruct H1 as (? & [= <-] & ?), H2 as (? & [= <-] & ?). auto.
Qed.

Lemma validar_configuracion_entorno_witness :
  let env := fun k =>
               if String.eqb k "SERPAPI_API_KEY" then Some "abc123"
               else if String.eqb k "AIRTABLE_API_KEY" then Some ""
               else None in
  fst (validar_configuracion (Config_de env)) = false.
Proof.
  intros env.
  destruct (fst (validar_configuracion (Config_de env))) eqn:H;
    [|reflexivity].
  apply (proj1 (validar_configuracion_entorno env)) in H.
  destruct H as [_ (v & Hv & Hne)].
  injection Hv as <-. now destruct Hne.
Defined.

(** ** The data path of the dashboard *)

Lemma SFltb_false_leb (a b : spec_float) :
  Float64.is_nan a = false -> Float64.is_nan b = false ->
  SFltb a b = false -> SFleb b a = true.
Proof.
  intros Ha Hb. unfold SFltb, SFleb. rewrite (SFcompare_antisym a b).
  destruct (SFcompare a b) as [[]|] eqn:Hc; simpl; try easy.
  apply SFcompare_nan in Hc. destruct Hc; congruence.
Qed.

Lemma SFltb_leb (a b : spec_float) : SFltb a b = true -> SFleb a b = true.
Proof. unfold SFltb, SFleb. destruct (SFcompare a b) as [[]|]; easy. Qed.

Lemma SFleb_ltb_false (a b : spec_float) :
  SFleb a b = true -> SFltb b a = false.
Proof.
  unfold SFltb, SFleb. rewrite (SFcompare_antisym a b).
  destruct (SFcompare a b) as [[]|]; easy.
Qed.

Lemma SFleb_refl (a : spec_float) :
  Float64.is_nan a = false -> SFleb a a = true.
Proof.
  intros Ha. destruct (SFleb a a) eqn:H; [reflexivity|].
  pose proof (SFleb_total a a Ha Ha H) as H'. congruence.
Qed.

Section CargarDatosProps.
Variable tabla : Type.
Variable DataFrame_de : list valor -> tabla.
Variable getctime : string -> resultado Float64.t.
Variable read_csv : string -> resultado tabla.
Variable ctime : string -> Float64.t.

Let ctime_legible (f : string) : Prop :=
  getctime f = inr (ctime f) /\ Float64.is_nan (ctime f) = false.

Lemma max_getctime_aux_spec (resto : list string) :
  forall mejor,
    ctime_legible mejor ->
    (forall g, In g resto -> ctime_legible g) ->
    exists f,
      max_getctime_aux getctime mejor (ctime mejor) resto = inr f
      /\ (f = mejor \/ In f resto)
      /\ SFleb (ctime mejor) (ctime f) = true
      /\ forall g, In g resto -> SFleb (ctime g) (ctime f) = true.
Proof.
  induction resto as [| a r IH]; intros mejor Hm Hr.
  - exists mejor. split; [reflexivity | split; [now left | split]].
    + apply SFleb_refl, Hm.
    + intros g [].
  - assert (Ha : ctime_legible a) by (apply Hr; now left).
    assert (Hr' : forall g, In g r -> ctime_legible g)
      by (intros g Hg; apply Hr; now right).
    cbn [max_getctime_aux]. rewrite (proj1 Ha).
    destruct (Float64.ltb (ctime mejor) (ctime a)) eqn:Hlt.
    + destruct (IH a Ha Hr') as (f & Hf & Hin & Hle & Hall).
      exists f. split; [exact Hf | split; [|split]].
      * destruct Hin; [right; left; congruence | right; now right].
      * eapply SFleb_trans; [apply SFltb_leb; exact Hlt | exact Hle].
      * intros g [<- | Hg]; auto.
    + destruct (IH mejor Hm Hr') as (f & Hf & Hin & Hle & Hall).
      exists f. split; [exact Hf | split; [|split]].
      * destruct Hin; [now left | right; now right].
      * exact Hle.
      * intros g [<- | Hg]; auto.
        eapply SFleb_trans; [|exact Hle].
        apply SFltb_false_leb; [apply Hm | apply Ha | exact Hlt].
Qed.

Lemma cargar_datos_csv (a : string) (r : list string) :
  (forall g, In g (a :: r) -> ctime_legible g) ->
  exists f,
    cargar_datos tabla DataFrame_de getctime read_csv None (a :: r)
    = read_csv f
    /\ In f (a :: r)
    /\ forall g, In g (a :: r) -> Float64.ltb (ctime f) (ctime g) = false.
Proof.
  intros Hok.
  assert (Ha : ctime_legible a) by (apply Hok; now left).
  destruct (max_getctime_aux_spec r a Ha) as (f & Hf & Hin & Hle & Hall).
  { intros g Hg. apply Hok. now right. }
  exists f. split; [|split].
  - unfold cargar_datos, max_getctime.
    rewrite (proj1 Ha), Hf. reflexivity.
  - destruct Hin; [left; congruence | now right].
  - intros g [<- | Hg]; apply SFleb_ltb_false; auto.
Qed.

End CargarDatosProps.

(** X13: without a table and without any matching file [cargar_datos]
    raises [FileNotFoundError] and reads nothing.  Without a table and
    with listed files whose creation times can all be read, it loads one
    of the listed files, and none of them is more recent than the one
    loaded; nothing is asked of any other path. *)
Theorem cargar_datos_sin_tabla
  (tabla : Type) (DataFrame_de : list valor -> tabla)
  (getctime : string -> resultado Float64.t)
  (read_csv : string -> resultado tabla) (ctime : string -> Float64.t) :
  cargar_datos tabla DataFrame_de getctime read_csv None []
  = inl FileNotFoundError
  /\ forall a r,
       (forall g, In g (a :: r) ->
                  getctime g = inr (ctime g)
                  /\ Float64.is_nan (ctime g) = false) ->
       exists f,
         cargar_datos tabla DataFrame_de getctime read_csv None (a :: r)
         = read_csv f
         /\ In f (a :: r)
         /\ forall g, In g (a :: r) ->
              Float64.ltb (ctime f) (ctime g) = false.
Proof.
  split; [reflexivity|].
  intros a r Hok. now apply cargar_datos_csv.
Qed.

(** Three listed files; every other path does not exist. *)
Lemma cargar_datos_sin_tabla_witness :
  let archivos := ["clientes_potenciales_1.csv"; "clientes_potenciales_2.csv";
                   "clientes_potenciales_3.csv"] in
  let ctime := fun f : string =>
                 if String.eqb f "clientes_potenciales_2.csv" then f4_8
                 else f3_2 in
  let getctime := fun f : string =>
                    if existsb (String.eqb f) archivos then inr (ctime f)
                    else inl (OtraExcepcion "FileNotFoundError") in
  let read_csv := fun f : string => inr f : resultado string in
  (forall g, In g archivos ->
             getctime g = inr (ctime g) /\ Float64.is_nan (ctime g) = false)
  /\ exists f,
       cargar_datos string (fun _ => "airtable") getctime read_csv None archivos
       = inr f
       /\ In f archivos.
Proof.
  intros archivos ctime getctime read_csv.
  assert (Hok : forall g, In g archivos ->
                  getctime g = inr (ctime g)
                  /\ Float64.is_nan (ctime g) = false).
  { intros g [<- | [<- | [<- | []]]]; split; reflexivity. }
  split; [exact Hok|].
  destruct (proj2 (cargar_datos_sin_tabla string (fun _ => "airtable")
                     getctime read_csv ctime)
              "clientes_potenciales_1.csv"
              ["clientes_potenciales_2.csv"; "clientes_potenciales_3.csv"] Hok)
    as (f & Hf & Hin & _).
  exists f. split; [exact Hf | exact Hin].
Defined.

Lemma isin_In (x : string) (l : list string) : isin x l = true <-> In x l.
Proof.
  unfold isin. rewrite existsb_exists. split.
  - intros (y & Hy & He). apply String.eqb_eq in He. now subst.
  - intros H. exists x. split; [exact H | apply String.eqb_refl].
Qed.

Lemma unique_In (x : string) (l : list string) : In x (unique l) <-> In x l.
Proof.
  induction l as [| y l IH]; [reflexivity|].
  cbn [unique In]. rewrite filter_In, IH.
  destruct (String.eqb_spec x y) as [-> | Hne]; [tauto|].
  split; [tauto|]. intros [-> | H]; [now destruct Hne|].
  right. split; [exact H|]. cbn.
  destruct (String.eqb_spec x y); [contradiction | reflexivity].
Qed.

(** X14: the guard of [main] tests the loaded table, not the filtered
    one: on a non-empty table the metrics raise [ZeroDivisionError]
    exactly when the filters leave no row, which happens in particular
    whenever every business type or every priority is deselected. *)
Theorem metricas_de_main_sin_filas
  (fila : Lead) (resto : list Lead) (tipo_negocio prioridad : list string)
  (rating_min rating_max : Float64.t) :
  let df := fila :: resto in
  (metricas_de_main df tipo_negocio prioridad rating_min rating_max
   = inl ZeroDivisionError
   <-> aplicar_filtros df tipo_negocio prioridad rating_min rating_max = [])
  /\ aplicar_filtros df [] prioridad rating_min rating_max = []
  /\ aplicar_filtros df tipo_negocio [] rating_min rating_max = [].
Proof.
  intros df. split; [|split].
  - unfold metricas_de_main, df.
    destruct (aplicar_filtros (fila :: resto) tipo_negocio prioridad
                rating_min rating_max) as [| x l] eqn:Hf.
    + split; reflexivity.
    + destruct (truediv_fraccion (len (filtrar_alta (x :: l))) (len (x :: l)))
        as [c Hc].
      * apply len_filter_le.
      * unfold len. simpl List.length. lia.
      * unfold calcular_metricas_clave. rewrite Hc.
        split; discriminate.
  - unfold aplicar_filtros.
    induction df as [| x l IH]; [reflexivity | exact IH].
  - unfold aplicar_filtros.
    induction df as [| x l IH]; [reflexivity|].
    cbn [filter isin existsb]. rewrite andb_false_r. exact IH.
Qed.

(** X15: with the default selections, every value of the two columns,
    only the slider filters: the rows kept are those whose rating lies in
    the chosen range.  A row whose rating is NaN is never kept, whatever
    the selections and the range. *)
Theorem aplicar_filtros_por_defecto
  (df : list Lead) (rating_min rating_max : Float64.t) :
  aplicar_filtros df (unique (map Tipo_Negocio df)) (unique (map Prioridad df))
    rating_min rating_max
  = filter
      (fun fila =>
         float_ge (Calificacion fila) rating_min
         && Float64.leb (Calificacion fila) rating_max)
      df
  /\ forall tipo_negocio prioridad,
       Forall (fun fila => Float64.is_nan (Calificacion fila) = false)
         (aplicar_filtros df tipo_negocio prioridad rating_min rating_max).
Proof.
  split.
  - unfold aplicar_filtros. apply filter_ext_in. intros fila Hin.
    assert (H1 : isin (Tipo_Negocio fila) (unique (map Tipo_Negocio df)) = true)
      by (apply isin_In, unique_In, in_map, Hin).
    assert (H2 : isin (Prioridad fila) (unique (map Prioridad df)) = true)
      by (apply isin_In, unique_In, in_map, Hin).
    now rewrite H1, H2.
  - intros tipo_negocio prioridad. apply Forall_forall. intros fila Hin.
    unfold aplicar_filtros in Hin. apply filter_In in Hin.
    destruct Hin as [_ Hin]. apply andb_prop in Hin. destruct Hin as [_ Hle].
    now apply SFleb_no_nan in Hle.
Qed.

(** X16: whenever [calcular_metricas_clave] returns, the table has at
    least one row, each of the three counts lies between 0 and the total,
    and the potential value is 2500 per row. *)
Theorem metricas_acotadas (df : list Lead) (m : Metricas) :
  calcular_metricas_clave df = inr m ->
  1 <= total_leads m
  /\ total_leads m = len df
  /\ 0 <= alta_prioridad m <= total_leads m
  /\ 0 <= sin_web m <= total_leads m
  /\ 0 <= rating_bajo m <= total_leads m
  /\ valor_potencial_total m = 2500 * total_leads m.
Proof.
  unfold calcular_metricas_clave.
  destruct (truediv _ _) as [e | c] eqn:Ht; [discriminate|].
  intros [= <-]. cbn [total_leads alta_prioridad sin_web rating_bajo
                      valor_potencial_total].
  assert (H1 := len_filter_le es_alta df).
  assert (H2 := len_filter_le (fun f => eq_str (Sitio_Web f) SENTINELA) df).
  assert (H3 := len_filter_le
                  (fun f => Float64.ltb (Calificacion f) Float64.four) df).
  assert (H0 : 1 <= len df).
  { unfold truediv in Ht. destruct (len df =? 0) eqn:Hz; [discriminate|].
    apply Z.eqb_neq in Hz. unfold len in *. lia. }
  unfold filtrar_alta, filtrar_sin_web, filtrar_rating_bajo.
  repeat split; lia.
Qed.

Lemma metricas_acotadas_witness :
  exists m,
    calcular_metricas_clave [lead_abc; lead_xyz] = inr m
    /\ total_leads m = 2
    /\ 0 <= alta_prioridad m <= total_leads m
    /\ valor_potencial_total m = 2500 * total_leads m.
Proof.
  eexists. split; [vm_compute; reflexivity|].
  match goal with
  | |- context [total_leads ?m] =>
      destruct (metricas_acotadas [lead_abc; lead_xyz] m eq_refl)
        as (_ & Ht & Ha & _ & _ & Hv)
  end.
  split; [exact Ht | split; [exact Ha | exact Hv]].
Defined.

Lemma metricas_de_main_sin_filas_witness :
  let df := [lead_abc; lead_xyz] in
  aplicar_filtros df ["Clínicas"] ["Urgente"] Float64.zero f4_8 = []
  /\ metricas_de_main df ["Clínicas"] ["Urgente"] Float64.zero f4_8
     = inl ZeroDivisionError.
Proof.
  intros df. split; [reflexivity|].
  apply (proj1 (metricas_de_main_sin_filas lead_abc [lead_xyz]
                  ["Clínicas"] ["Urgente"] Float64.zero f4_8)).
  reflexivity.
Defined.
